(** * salin-translator: the reaction router and the translation client

    A shallow embedding of [main.go].  The bot has one handler,
    [reactionAdd], and one helper, [translateWithOpenAI].  Both talk to the
    outside world (the chat platform, the HTTP transport, the JSON codec and
    the logger); the embedding keeps every such call visible as an [Event] in
    the trace of a small writer monad, and takes the answers of the outside
    world from a [World] record. *)

From stdpp Require Import base strings gmap list pretty.

(** ** Go values *)

(** A Go [error] is observed only through its message ([%v]). *)
Definition error : Type := string.

(** The two-valued returns [(T, error)] of the library calls: [inl] is the
    value with a nil error, [inr] the non-nil error. *)
Notation "'Ok' x" := (inl x) (at level 9, x at level 9, only parsing).
Notation "'Err' e" := (inr e) (at level 9, e at level 9, only parsing).

(** ** The [discordgo] types the handler touches

    Only the fields read or written by [main.go] are kept.  Pointers the
    platform always fills ([s.State.User] once the session is ready, the
    author of a fetched message) are modelled as the record they point to. *)
Module discordgo.

Record User := mkUser {
  ID : string;
  Username : string;
  Avatar : string
}.

Record Emoji := mkEmoji {
  Name : string
}.

(** [MessageReactionAdd] embeds [*MessageReaction]. *)
Record MessageReactionAdd := mkMessageReactionAdd {
  UserID : string;
  MessageID : string;
  Reaction_Emoji : Emoji;
  ChannelID : string
}.

Record Message := mkMessage {
  Message_Author : User;
  Content : string
}.

Record State := mkState {
  State_User : User
}.

Record Session := mkSession {
  Session_State : State
}.

Record MessageEmbedAuthor := mkMessageEmbedAuthor {
  EmbedAuthor_Name : string;
  IconURL : string
}.

Record MessageEmbedFooter := mkMessageEmbedFooter {
  Text : string
}.

Record MessageEmbed := mkMessageEmbed {
  Author : MessageEmbedAuthor;
  Description : string;
  Footer : MessageEmbedFooter;
  Color : Z
}.

End discordgo.

(** ** The types of [main.go] *)

Record Config := mkConfig {
  DiscordToken : string;
  OpenAIToken : string
}.

Record Message := mkMessage {
  Role : string;
  Content : string
}.

Record OpenAIRequest := mkOpenAIRequest {
  Model : string;
  Messages : list Message
}.

(** The anonymous structs of [OpenAIResponse]. *)
Record ChoiceMessage := mkChoiceMessage {
  Choice_Content : string
}.

Record Choice := mkChoice {
  Choice_Message : ChoiceMessage
}.

Record OpenAIResponse := mkOpenAIResponse {
  Choices : list Choice
}.

Record DiscordHandler := mkDiscordHandler {
  config : Config
}.

(** ** The [net/http] types *)
Module http.

Definition StatusOK : Z := 200.

Record Request := mkRequest {
  Method : string;
  URL : string;
  Header : gmap string (list string);
  Body : string
}.

(** [req.Header.Set(key, value)]: the key's values are replaced by the
    single [value].  Both keys set by [main.go] are already in canonical
    MIME form, so the canonicalisation of [Set] leaves them as written. *)
Definition Header_Set (key value : string) (req : Request) : Request :=
  {| Method := Method req;
     URL := URL req;
     Header := <[key := [value]]> (Header req);
     Body := Body req |}.

Record Response := mkResponse {
  StatusCode : Z;
  Resp_Body : string
}.

End http.

(** ** The flag table *)

Definition flagToLang : gmap string string :=
  list_to_map
    [ ("🇺🇸", "English");
      ("🇬🇧", "English");
      ("🇪🇸", "Spanish");
      ("🇫🇷", "French");
      ("🇩🇪", "German");
      ("🇮🇹", "Italian");
      ("🇯🇵", "Japanese");
      ("🇰🇷", "Korean");
      ("🇨🇳", "Chinese");
      ("🇵🇹", "Portuguese");
      ("🇷🇺", "Russian") ].

(** ** Effects *)

(** Everything the code does to the outside world, in program order. *)
Inductive Event :=
  | Log (line : string)
      (** [log.Printf] *)
  | FetchMessage (channelID messageID : string)
      (** [s.ChannelMessage] *)
  | HTTPDo (req : http.Request)
      (** [client.Do] *)
  | BodyDecode (body : string)
      (** [json.NewDecoder(resp.Body).Decode] *)
  | BodyClose
      (** the deferred [resp.Body.Close()] *)
  | SendEmbed (channelID : string) (embed : discordgo.MessageEmbed)
      (** [s.ChannelMessageSendEmbed] *).

(** A computation returns its value together with the events it performed. *)
Record M (A : Type) := mkM {
  result : A;
  trace : list Event
}.
Arguments mkM {A} _ _.
Arguments result {A} _.
Arguments trace {A} _.

#[global] Instance M_ret : MRet M := λ A a, mkM a [].
#[global] Instance M_bind : MBind M := λ A B f m,
  let r := f (result m) in mkM (result r) (trace m ++ trace r).

Definition tell (e : Event) : M unit := mkM tt [e].

(** The answers of the outside world.  Each field is the pure part of one
    library call; the call itself is recorded by the wrappers below. *)
Record World := mkWorld {
  (** [s.ChannelMessage(channelID, messageID)] *)
  ChannelMessage : string → string → discordgo.Message + error;
  (** [user.AvatarURL(size)] *)
  AvatarURL : discordgo.User → string → string;
  (** [s.ChannelMessageSendEmbed(channelID, embed)]; the posted message is
      discarded by the caller, only the error is kept. *)
  ChannelMessageSendEmbed : string → discordgo.MessageEmbed → option error;
  (** [json.Marshal(requestBody)] *)
  json_Marshal : OpenAIRequest → string + error;
  (** The failure of [http.NewRequest(method, url, _)], if any. *)
  NewRequest_error : string → string → option error;
  (** [client.Do(req)] *)
  client_Do : http.Request → http.Response + error;
  (** [json.NewDecoder(body).Decode(&response)] *)
  json_Decode : string → OpenAIResponse + error
}.

Section Calls.
Context (w : World).

Definition log_Printf (line : string) : M unit := tell (Log line).

Definition s_ChannelMessage (channelID messageID : string)
  : M (discordgo.Message + error) :=
  tell (FetchMessage channelID messageID);;
  mret (ChannelMessage w channelID messageID).

Definition s_ChannelMessageSendEmbed
    (channelID : string) (embed : discordgo.MessageEmbed) : M (option error) :=
  tell (SendEmbed channelID embed);;
  mret (ChannelMessageSendEmbed w channelID embed).

Definition http_NewRequest (method url body : string) : http.Request + error :=
  match NewRequest_error w method url with
  | Some err => Err err
  | None => Ok {| http.Method := method; http.URL := url;
                  http.Header := ∅; http.Body := body |}
  end.

Definition http_client_Do (req : http.Request) : M (http.Response + error) :=
  tell (HTTPDo req);;
  mret (client_Do w req).

Definition json_NewDecoder_Decode (body : string) : M (OpenAIResponse + error) :=
  tell (BodyDecode body);;
  mret (json_Decode w body).

Definition Body_Close : M unit := tell BodyClose.

(** ** [translateWithOpenAI] *)

(** The local [prompt] (line 148): [fmt.Sprintf] with two [%s] verbs. *)
Definition prompt (text targetLang : string) : string :=
  "Translate the following text to " +:+ targetLang +:+
  ". Only respond with the translation, nothing else: " +:+ text.

(** The local [requestBody] (lines 150-159). *)
Definition requestBody (text targetLang : string) : OpenAIRequest :=
  {| Model := "gpt-3.5-turbo";
     Messages := [ {| Role := "user"; Content := prompt text targetLang |} ] |}.

(** The request handed to [client.Do]: built by [http.NewRequest], then
    the two headers are set (lines 166-172). *)
Definition setHeaders (openAIToken : string) (req : http.Request) : http.Request :=
  http.Header_Set "Authorization" ("Bearer " +:+ openAIToken)
    (http.Header_Set "Content-Type" "application/json" req).

(** Lines 181-194, run once [client.Do] has answered with [resp]. *)
Definition readResponse (resp : http.Response) : M (string * option error) :=
  if decide (http.StatusCode resp ≠ http.StatusOK) then
    mret ("", Some ("unexpected status code: " +:+ pretty (http.StatusCode resp)))
  else
    decoded ← json_NewDecoder_Decode (http.Resp_Body resp);
    match decoded with
    | Err err => mret ("", Some ("error decoding response: " +:+ err))
    | Ok response =>
        match Choices response with
        | [] => mret ("", Some "no translation returned")
        | choice :: _ => mret (Choice_Content (Choice_Message choice), None)
        end
    end.

Definition translateWithOpenAI (text targetLang openAIToken : string)
  : M (string * option error) :=
  log_Printf ("Translating text: " +:+ text);;
  log_Printf ("Target language: " +:+ targetLang);;
  match json_Marshal w (requestBody text targetLang) with
  | Err err => mret ("", Some ("error marshaling request: " +:+ err))
  | Ok jsonData =>
      match http_NewRequest "POST" "https://api.openai.com/v1/chat/completions"
              jsonData with
      | Err err => mret ("", Some ("error creating request: " +:+ err))
      | Ok req =>
          let req := setHeaders openAIToken req in
          answer ← http_client_Do req;
          match answer with
          | Err err => mret ("", Some ("error making request: " +:+ err))
          | Ok resp =>
              out ← readResponse resp;
              Body_Close;;
              mret out
          end
      end
  end.

(** ** [reactionAdd] *)

(** The embed of lines 94-104. *)
Definition replyEmbed (msg : discordgo.Message) (translation targetLang : string)
  : discordgo.MessageEmbed :=
  {| discordgo.Author :=
       {| discordgo.EmbedAuthor_Name :=
            discordgo.Username (discordgo.Message_Author msg);
          discordgo.IconURL := AvatarURL w (discordgo.Message_Author msg) "" |};
     discordgo.Description := translation;
     discordgo.Footer := {| discordgo.Text := "Translated to " +:+ targetLang |};
     discordgo.Color := 0x00BFFF |}.

Definition reactionAdd (h : DiscordHandler) (s : discordgo.Session)
    (r : discordgo.MessageReactionAdd) : M unit :=
  if decide (discordgo.UserID r
             = discordgo.ID (discordgo.State_User (discordgo.Session_State s)))
  then mret tt
  else
    match flagToLang !! discordgo.Name (discordgo.Reaction_Emoji r) with
    | None => mret tt
    | Some targetLang =>
        fetched ← s_ChannelMessage (discordgo.ChannelID r) (discordgo.MessageID r);
        match fetched with
        | Err err => log_Printf ("Error fetching message: " +:+ err)
        | Ok msg =>
            if decide (discordgo.Content msg = "") then mret tt
            else
              translated ← translateWithOpenAI (discordgo.Content msg) targetLang
                             (OpenAIToken (config h));
              match translated with
              | (_, Some err) => log_Printf ("Error translating text: " +:+ err)
              | (translation, None) =>
                  sent ← s_ChannelMessageSendEmbed (discordgo.ChannelID r)
                           (replyEmbed msg translation targetLang);
                  match sent with
                  | Some err => log_Printf ("Error sending translation: " +:+ err)
                  | None => mret tt
                  end
              end
        end
    end.

End Calls.

Arguments prompt : simpl never.

(** ** Reading traces *)

Definition is_fetch (e : Event) : bool :=
  match e with FetchMessage _ _ => true | _ => false end.

Definition is_translation_call (e : Event) : bool :=
  match e with HTTPDo _ => true | _ => false end.

Definition is_reply (e : Event) : bool :=
  match e with SendEmbed _ _ => true | _ => false end.

(** The calls that leave the process: the two platform calls and the HTTP
    call.  Logging and the handling of an already received body are local. *)
Definition is_network_call (e : Event) : bool :=
  is_fetch e || is_translation_call e || is_reply e.

(** The request [translateWithOpenAI] sends once marshalling gave [jsonData]. *)
Definition sentRequest (openAIToken jsonData : string) : http.Request :=
  setHeaders openAIToken
    {| http.Method := "POST";
       http.URL := "https://api.openai.com/v1/chat/completions";
       http.Header := ∅;
       http.Body := jsonData |}.

(** Non-empty text made of ASCII white space only. *)
Fixpoint all_space (s : string) : bool :=
  match s with
  | EmptyString => true
  | String c s' => Ascii.is_space c && all_space s'
  end.

Definition whitespace_only (s : string) : bool :=
  match s with
  | EmptyString => false
  | String _ _ => all_space s
  end.

(** What [reactionAdd] does once the translation client has returned
    (lines 88-110), as a trace. *)
Definition afterTranslate (w : World) (channelID : string) (msg : discordgo.Message)
    (targetLang : string) (translated : string * option error) : list Event :=
  match translated with
  | (_, Some err) => [Log ("Error translating text: " +:+ err)]
  | (translation, None) =>
      let embed := replyEmbed w msg translation targetLang in
      SendEmbed channelID embed
      :: match ChannelMessageSendEmbed w channelID embed with
         | Some err => [Log ("Error sending translation: " +:+ err)]
         | None => []
         end
  end.

(** ** Response bodies *)

(** JSON text written with apostrophes (code 39) in place of the quotation
    marks (code 34). *)
Fixpoint json_lit (s : string) : string :=
  match s with
  | EmptyString => EmptyString
  | String c s' =>
      String (if Ascii.eqb c (Ascii.ascii_of_nat 39) then Ascii.ascii_of_nat 34 else c)
             (json_lit s')
  end.

(** The service response of the end-to-end scenario. *)
Definition holaBody : string :=
  json_lit "{'choices':[{'message':{'content':'Hola'}}]}".

Definition noChoiceBody : string := json_lit "{'choices':[]}".

(** ** A test double of the outside world

    Used to run the handler on concrete events. *)
Module Stub.

Definition alice : discordgo.User :=
  {| discordgo.ID := "1001"; discordgo.Username := "Alice";
     discordgo.Avatar := "a1b2c3" |}.

Definition bot : discordgo.User :=
  {| discordgo.ID := "9000"; discordgo.Username := "salin";
     discordgo.Avatar := "" |}.

Definition session : discordgo.Session :=
  {| discordgo.Session_State := {| discordgo.State_User := bot |} |}.

Definition handler : DiscordHandler :=
  {| config := {| DiscordToken := "discord-token"; OpenAIToken := "sk-test" |} |}.

(** The messages of channel [C], by message id: a text, an image-only
    message and a message made of two spaces. *)
Definition messages : gmap string discordgo.Message :=
  list_to_map
    [ ("M", {| discordgo.Message_Author := alice;
               discordgo.Content := "Hello there" |});
      ("M-image", {| discordgo.Message_Author := alice;
                     discordgo.Content := "" |});
      ("M-blank", {| discordgo.Message_Author := alice;
                     discordgo.Content := "  " |}) ].

Definition fetchMessage (channelID messageID : string) : discordgo.Message + error :=
  if decide (channelID = "C") then
    match messages !! messageID with
    | Some msg => Ok msg
    | None => Err "HTTP 404 Not Found"
    end
  else Err "HTTP 404 Not Found".

Definition avatarURL (u : discordgo.User) (size : string) : string :=
  "https://cdn.discordapp.com/avatars/" +:+ discordgo.ID u +:+ "/"
  +:+ discordgo.Avatar u +:+ ".png".

(** Serialises without escaping, which is enough for the texts used here. *)
Definition marshalMessage (m : Message) : string :=
  json_lit "{'role':'" +:+ Role m +:+ json_lit "','content':'" +:+ Content m
  +:+ json_lit "'}".

Definition marshal (req : OpenAIRequest) : string + error :=
  Ok (json_lit "{'model':'" +:+ Model req +:+ json_lit "','messages':["
      +:+ String.concat "," (marshalMessage <$> Messages req) +:+ "]}").

(** What [marshal] gives for the request of ("Hello there", "Spanish"). *)
Definition helloSpanishJSON : string :=
  json_lit "{'model':'gpt-3.5-turbo','messages':[{'role':'user','content':'Translate the following text to Spanish. Only respond with the translation, nothing else: Hello there'}]}".

(** Decodes the two response bodies above and rejects everything else. *)
Definition decode (body : string) : OpenAIResponse + error :=
  if decide (body = holaBody) then
    Ok {| Choices := [ {| Choice_Message := {| Choice_Content := "Hola" |} |} ] |}
  else if decide (body = noChoiceBody) then Ok {| Choices := [] |}
  else Err "invalid character".

(** The world in which the translation service gives [answer]. *)
Definition world (answer : http.Response + error) : World :=
  {| ChannelMessage := fetchMessage;
     AvatarURL := avatarURL;
     ChannelMessageSendEmbed := λ _ _, None;
     json_Marshal := marshal;
     NewRequest_error := λ _ _, None;
     client_Do := λ _, answer;
     json_Decode := decode |}.

Definition reaction (userID emojiName messageID : string)
  : discordgo.MessageReactionAdd :=
  {| discordgo.UserID := userID;
     discordgo.MessageID := messageID;
     discordgo.Reaction_Emoji := {| discordgo.Name := emojiName |};
     discordgo.ChannelID := "C" |}.

End Stub.

(** ** Further readers of the translation client *)

Definition is_log (e : Event) : bool :=
  match e with Log _ => true | _ => false end.

(** The line of [main.go] whose [return] ends [translateWithOpenAI]: it
    follows the tests of the function in their order. *)
Definition returnLine (w : World) (text targetLang openAIToken : string) : nat :=
  match json_Marshal w (requestBody text targetLang) with
  | Err _ => 163
  | Ok jsonData =>
      match http_NewRequest w "POST" "https://api.openai.com/v1/chat/completions"
              jsonData with
      | Err _ => 168
      | Ok req =>
          match client_Do w (setHeaders openAIToken req) with
          | Err _ => 177
          | Ok resp =>
              if decide (http.StatusCode resp ≠ http.StatusOK) then 182
              else
                match json_Decode w (http.Resp_Body resp) with
                | Err _ => 187
                | Ok response =>
                    match Choices response with
                    | [] => 191
                    | _ :: _ => 194
                    end
                end
          end
      end
  end.

(** ** [main] *)

Inductive Signal := SIGINT | SIGTERM.

(** What [main] does to the process and to the session, in program order. *)
Inductive MainEvent :=
  | Fatal (line : string)
      (** [log.Fatal]: the line is printed, then [os.Exit(1)] *)
  | SessionNew (token : string)
      (** [discordgo.New] *)
  | SessionAddHandler (h : DiscordHandler)
      (** [dg.AddHandler(handler.reactionAdd)] *)
  | SessionOpen
      (** [dg.Open] *)
  | Println (line : string)
      (** [fmt.Println] *)
  | SignalNotify (signals : list Signal)
      (** [signal.Notify(sc, ...)] *)
  | SignalReceive (sig : Signal)
      (** [<-sc] *)
  | SessionClose
      (** the deferred [dg.Close()] *).

(** The answers [main] gets from its environment. *)
Record Boot := mkBoot {
  (** [envconfig.Process("", &c)] *)
  envconfig_Process : Config + error;
  (** the error of [discordgo.New(token)], if any *)
  discordgo_New : string → option error;
  (** the error of [dg.Open()], if any *)
  dg_Open : option error;
  (** the signal that reaches the channel [sc]; [None] when none ever does *)
  delivered : option Signal
}.

(** [main] returns its events and its exit status; the status is [None]
    while the process is still blocked on [<-sc].  [log.Fatal] formats its
    operands like [fmt.Sprint], which puts no space between a string and
    the operand next to it. *)
Definition main (b : Boot) : list MainEvent * option Z :=
  match envconfig_Process b with
  | Err err => ([Fatal err], Some 1%Z)
  | Ok c =>
      match discordgo_New b ("Bot " +:+ DiscordToken c) with
      | Some err =>
          ([ SessionNew ("Bot " +:+ DiscordToken c);
             Fatal ("Error creating Discord session:" +:+ err) ], Some 1%Z)
      | None =>
          let handler := {| config := c |} in
          match dg_Open b with
          | Some err =>
              ([ SessionNew ("Bot " +:+ DiscordToken c);
                 SessionAddHandler handler;
                 SessionOpen;
                 Fatal ("Error opening connection:" +:+ err) ], Some 1%Z)
          | None =>
              let started :=
                [ SessionNew ("Bot " +:+ DiscordToken c);
                  SessionAddHandler handler;
                  SessionOpen;
                  Println "Bot is running. Press CTRL-C to exit.";
                  SignalNotify [SIGINT; SIGTERM] ] in
              match delivered b with
              | None => (started, None)
              | Some sig => (started ++ [SignalReceive sig; SessionClose], Some 0%Z)
              end
          end
      end
  end.

Definition is_fatal (e : MainEvent) : bool :=
  match e with Fatal _ => true | _ => false end.

(** A start-up environment for the test double: both credentials set, the
    session created and opened, the process interrupted. *)
Definition stubBoot : Boot :=
  {| envconfig_Process :=
       Ok {| DiscordToken := "discord-token"; OpenAIToken := "sk-test" |};
     discordgo_New := λ _, None;
     dg_Open := None;
     delivered := Some SIGINT |}.

(** Case analysis on membership in an explicit trace. *)
Ltac trace_inv H :=
  repeat match type of H with
  | _ ∈ _ :: _ => apply elem_of_cons in H as [H|H]; [try discriminate H|]
  | _ ∈ [] => apply elem_of_nil in H; contradiction
  | _ ∈ _ ++ _ => apply elem_of_app in H as [H|H]
  end.

Ltac run :=
  unfold translateWithOpenAI, readResponse, http_client_Do, json_NewDecoder_Decode,
    s_ChannelMessage, s_ChannelMessageSendEmbed, http_NewRequest, Body_Close,
    log_Printf, tell, mbind, M_bind, mret, M_ret in *;
  cbn [result trace app] in *.

(** ** The translation client, case by case *)

Section TranslationClient.
Context (w : World) (text targetLang openAIToken : string).

Local Abbreviation call := (translateWithOpenAI w text targetLang openAIToken).
Local Abbreviation logs := [Log ("Translating text: " +:+ text);
                        Log ("Target language: " +:+ targetLang)].

Lemma translate_marshal_error err :
  json_Marshal w (requestBody text targetLang) = inr err →
  call = mkM ("", Some ("error marshaling request: " +:+ err)) logs.
Proof. intros E. run. rewrite E. reflexivity. Qed.

Lemma translate_request_error jsonData err :
  json_Marshal w (requestBody text targetLang) = inl jsonData →
  NewRequest_error w "POST" "https://api.openai.com/v1/chat/completions" = Some err →
  call = mkM ("", Some ("error creating request: " +:+ err)) logs.
Proof. intros E1 E2. run. rewrite E1, E2. reflexivity. Qed.

Lemma translate_transport_error jsonData err :
  json_Marshal w (requestBody text targetLang) = inl jsonData →
  NewRequest_error w "POST" "https://api.openai.com/v1/chat/completions" = None →
  client_Do w (sentRequest openAIToken jsonData) = inr err →
  call = mkM ("", Some ("error making request: " +:+ err))
             (logs ++ [HTTPDo (sentRequest openAIToken jsonData)]).
Proof.
  intros E1 E2 E3. run. rewrite E1, E2.
  fold (sentRequest openAIToken jsonData). rewrite E3. reflexivity.
Qed.

Lemma translate_answered jsonData resp :
  json_Marshal w (requestBody text targetLang) = inl jsonData →
  NewRequest_error w "POST" "https://api.openai.com/v1/chat/completions" = None →
  client_Do w (sentRequest openAIToken jsonData) = inl resp →
  call = mkM (result (readResponse w resp))
             (logs ++ [HTTPDo (sentRequest openAIToken jsonData)]
                   ++ trace (readResponse w resp) ++ [BodyClose]).
Proof.
  intros E1 E2 E3. unfold translateWithOpenAI, http_NewRequest.
  rewrite E1, E2. fold (sentRequest openAIToken jsonData).
  unfold http_client_Do, Body_Close, log_Printf, tell, mbind, M_bind, mret, M_ret.
  cbn [result trace]. rewrite E3. reflexivity.
Qed.

(** Whatever request reaches the wire is the one built from the marshalled
    [requestBody]. *)
Lemma translate_HTTPDo_inv req :
  HTTPDo req ∈ trace call →
  ∃ jsonData,
    json_Marshal w (requestBody text targetLang) = inl jsonData
    ∧ NewRequest_error w "POST" "https://api.openai.com/v1/chat/completions" = None
    ∧ req = sentRequest openAIToken jsonData.
Proof.
  intros Hin.
  destruct (json_Marshal w (requestBody text targetLang)) as [jsonData|err] eqn:E1.
  2:{ rewrite (translate_marshal_error _ E1) in Hin. cbn in Hin. trace_inv Hin. }
  destruct (NewRequest_error w "POST" "https://api.openai.com/v1/chat/completions")
    as [err|] eqn:E2.
  { rewrite (translate_request_error _ _ E1 E2) in Hin. cbn in Hin. trace_inv Hin. }
  exists jsonData. split; [reflexivity|]. split; [reflexivity|].
  destruct (client_Do w (sentRequest openAIToken jsonData)) as [resp|err] eqn:E3.
  - rewrite (translate_answered _ _ E1 E2 E3) in Hin. cbn in Hin.
    apply elem_of_cons in Hin as [Hin|Hin]; [discriminate|].
    apply elem_of_cons in Hin as [Hin|Hin]; [discriminate|].
    apply elem_of_cons in Hin as [Hin|Hin]; [congruence|].
    exfalso. unfold readResponse in Hin. run.
    repeat case_match; cbn in Hin; trace_inv Hin.
  - rewrite (translate_transport_error _ _ E1 E2 E3) in Hin. cbn in Hin.
    trace_inv Hin. congruence.
Qed.

End TranslationClient.

(** ** The response reader, case by case *)

Section ReadResponse.
Context (w : World) (resp : http.Response).

Lemma readResponse_status :
  http.StatusCode resp ≠ 200%Z →
  readResponse w resp
  = mkM ("", Some ("unexpected status code: " +:+ pretty (http.StatusCode resp))) [].
Proof.
  intros Hne. unfold readResponse, http.StatusOK.
  destruct (decide (http.StatusCode resp ≠ 200%Z)); [reflexivity | contradiction].
Qed.

Lemma readResponse_decode_error err :
  http.StatusCode resp = 200%Z →
  json_Decode w (http.Resp_Body resp) = inr err →
  readResponse w resp
  = mkM ("", Some ("error decoding response: " +:+ err))
        [BodyDecode (http.Resp_Body resp)].
Proof.
  intros H200 E. unfold readResponse, http.StatusOK.
  destruct (decide (http.StatusCode resp ≠ 200%Z)); [contradiction|].
  run. rewrite E. reflexivity.
Qed.

Lemma readResponse_no_choice response :
  http.StatusCode resp = 200%Z →
  json_Decode w (http.Resp_Body resp) = inl response →
  Choices response = [] →
  readResponse w resp
  = mkM ("", Some "no translation returned") [BodyDecode (http.Resp_Body resp)].
Proof.
  intros H200 E Hz. unfold readResponse, http.StatusOK.
  destruct (decide (http.StatusCode resp ≠ 200%Z)); [contradiction|].
  run. rewrite E, Hz. reflexivity.
Qed.

Lemma readResponse_first_choice response choice rest :
  http.StatusCode resp = 200%Z →
  json_Decode w (http.Resp_Body resp) = inl response →
  Choices response = choice :: rest →
  readResponse w resp
  = mkM (Choice_Content (Choice_Message choice), None)
        [BodyDecode (http.Resp_Body resp)].
Proof.
  intros H200 E Hc. unfold readResponse, http.StatusOK.
  destruct (decide (http.StatusCode resp ≠ 200%Z)); [contradiction|].
  run. rewrite E, Hc. reflexivity.
Qed.

(** An error never comes with a text. *)
Lemma readResponse_error_empty err :
  (result (readResponse w resp)).2 = Some err → (result (readResponse w resp)).1 = "".
Proof.
  unfold readResponse. run.
  repeat case_match; cbn; intros; (reflexivity || discriminate).
Qed.

(** The reader talks to nobody: it only handles the body it was given. *)
Lemma readResponse_local e :
  e ∈ trace (readResponse w resp) → e = BodyDecode (http.Resp_Body resp).
Proof.
  unfold readResponse. run.
  repeat case_match; cbn; intros Hin; trace_inv Hin; assumption.
Qed.

End ReadResponse.

(** ** The router, path by path *)

Section Router.
Context (w : World) (h : DiscordHandler) (s : discordgo.Session)
        (r : discordgo.MessageReactionAdd).

Local Abbreviation botID :=
  (discordgo.ID (discordgo.State_User (discordgo.Session_State s))).
Local Abbreviation emoji := (discordgo.Name (discordgo.Reaction_Emoji r)).
Local Abbreviation fetch :=
  (FetchMessage (discordgo.ChannelID r) (discordgo.MessageID r)).

Lemma reactionAdd_self :
  discordgo.UserID r = botID → reactionAdd w h s r = mret tt.
Proof.
  intros Hself. unfold reactionAdd.
  destruct (decide (discordgo.UserID r = botID)); [reflexivity | contradiction].
Qed.

Lemma reactionAdd_unsupported :
  flagToLang !! emoji = None → reactionAdd w h s r = mret tt.
Proof.
  intros Hmiss. unfold reactionAdd. rewrite Hmiss.
  destruct (decide (discordgo.UserID r = botID)); reflexivity.
Qed.

Lemma reactionAdd_fetch_error targetLang err :
  discordgo.UserID r ≠ botID →
  flagToLang !! emoji = Some targetLang →
  ChannelMessage w (discordgo.ChannelID r) (discordgo.MessageID r) = inr err →
  reactionAdd w h s r = mkM tt [fetch; Log ("Error fetching message: " +:+ err)].
Proof.
  intros Hother Hlang Hfetch. unfold reactionAdd. rewrite Hlang.
  destruct (decide (discordgo.UserID r = botID)); [contradiction|].
  run. rewrite Hfetch. reflexivity.
Qed.

Lemma reactionAdd_empty_content targetLang msg :
  discordgo.UserID r ≠ botID →
  flagToLang !! emoji = Some targetLang →
  ChannelMessage w (discordgo.ChannelID r) (discordgo.MessageID r) = inl msg →
  discordgo.Content msg = "" →
  reactionAdd w h s r = mkM tt [fetch].
Proof.
  intros Hother Hlang Hfetch Hempty. unfold reactionAdd. rewrite Hlang.
  destruct (decide (discordgo.UserID r = botID)); [contradiction|].
  run. rewrite Hfetch.
  destruct (decide (discordgo.Content msg = "")); [reflexivity | contradiction].
Qed.

Lemma reactionAdd_translates targetLang msg :
  discordgo.UserID r ≠ botID →
  flagToLang !! emoji = Some targetLang →
  ChannelMessage w (discordgo.ChannelID r) (discordgo.MessageID r) = inl msg →
  discordgo.Content msg ≠ "" →
  let call := translateWithOpenAI w (discordgo.Content msg) targetLang
                (OpenAIToken (config h)) in
  trace (reactionAdd w h s r)
  = fetch :: trace call
            ++ afterTranslate w (discordgo.ChannelID r) msg targetLang (result call).
Proof.
  intros Hother Hlang Hfetch Hfull call. unfold reactionAdd. rewrite Hlang.
  destruct (decide (discordgo.UserID r = botID)); [contradiction|].
  unfold s_ChannelMessage, tell, mbind, M_bind, mret, M_ret. cbn [result trace].
  rewrite Hfetch.
  destruct (decide (discordgo.Content msg = "")); [contradiction|].
  fold call. clearbody call.
  destruct call as [[translation [err|]] events]; cbn; [reflexivity|].
  destruct (ChannelMessageSendEmbed w _ _); reflexivity.
Qed.

End Router.

(** ** Running the handler on the test double *)

Example flagToLang_has_eleven_flags : size flagToLang = 11.
Proof. reflexivity. Qed.

Example flagToLang_languages :
  (λ flag, flagToLang !! flag)
    <$> ["🇺🇸"; "🇬🇧"; "🇪🇸"; "🇫🇷"; "🇩🇪"; "🇮🇹"; "🇯🇵"; "🇰🇷"; "🇨🇳"; "🇵🇹"; "🇷🇺"; "👍"; ""]
  = [Some "English"; Some "English"; Some "Spanish"; Some "French"; Some "German";
     Some "Italian"; Some "Japanese"; Some "Korean"; Some "Chinese";
     Some "Portuguese"; Some "Russian"; None; None].
Proof. reflexivity. Qed.

Example embed_color : discordgo.Color (replyEmbed (Stub.world (Err "down"))
  {| discordgo.Message_Author := Stub.alice; discordgo.Content := "x" |} "y" "Z")
  = 49151%Z.
Proof. reflexivity. Qed.

Example holaBody_length : String.length holaBody = 44.
Proof. reflexivity. Qed.

Example marshal_hello_spanish :
  Stub.marshal (requestBody "Hello there" "Spanish") = Ok Stub.helloSpanishJSON.
Proof. reflexivity. Qed.

(** The end-to-end scenario, run in full. *)
Example run_spanish :
  let w := Stub.world (Ok {| http.StatusCode := 200; http.Resp_Body := holaBody |}) in
  ∃ req,
    http.Header req !! "Content-Type" = Some ["application/json"]
    ∧ http.Header req !! "Authorization" = Some ["Bearer sk-test"]
    ∧ size (http.Header req) = 2
    ∧ reactionAdd w Stub.handler Stub.session (Stub.reaction "1001" "🇪🇸" "M")
      = mkM tt
          [ FetchMessage "C" "M";
            Log "Translating text: Hello there";
            Log "Target language: Spanish";
            HTTPDo req;
            BodyDecode holaBody;
            BodyClose;
            SendEmbed "C"
              {| discordgo.Author :=
                   {| discordgo.EmbedAuthor_Name := "Alice";
                      discordgo.IconURL :=
                        "https://cdn.discordapp.com/avatars/1001/a1b2c3.png" |};
                 discordgo.Description := "Hola";
                 discordgo.Footer := {| discordgo.Text := "Translated to Spanish" |};
                 discordgo.Color := 49151 |} ].
Proof.
  intros w. eexists. split; [|split; [|split]]; [| | |reflexivity]; reflexivity.
Qed.

(** When the transport fails the handler only logs. *)
Example run_transport_down :
  ∃ req,
    reactionAdd (Stub.world (Err "dial tcp: connection refused"))
      Stub.handler Stub.session (Stub.reaction "1001" "🇫🇷" "M")
    = mkM tt
        [ FetchMessage "C" "M";
          Log "Translating text: Hello there";
          Log "Target language: French";
          HTTPDo req;
          Log "Error translating text: error making request: dial tcp: connection refused" ].
Proof. eexists. reflexivity. Qed.

(** A message that cannot be fetched is logged and dropped. *)
Example run_fetch_fails :
  reactionAdd (Stub.world (Err "down")) Stub.handler Stub.session
    (Stub.reaction "1001" "🇫🇷" "M-deleted")
  = mkM tt [ FetchMessage "C" "M-deleted";
             Log "Error fetching message: HTTP 404 Not Found" ].
Proof. reflexivity. Qed.

(** * The claims *)

(** C1.  A reaction whose emoji is not a key of [flagToLang] is ignored:
    the handler performs no effect at all, so no message is fetched, the
    translation service is not called and nothing is posted. *)
Theorem C1_unsupported_emoji_noop
    (w : World) (h : DiscordHandler) (s : discordgo.Session)
    (r : discordgo.MessageReactionAdd) :
  flagToLang !! discordgo.Name (discordgo.Reaction_Emoji r) = None →
  trace (reactionAdd w h s r) = [].
Proof. intros Hmiss. rewrite reactionAdd_unsupported by exact Hmiss. reflexivity. Qed.

Lemma C1_unsupported_emoji_noop_witness :
  flagToLang !! "👍" = None
  ∧ trace (reactionAdd
             (Stub.world (Ok {| http.StatusCode := 200;
                                http.Resp_Body := holaBody |}))
             Stub.handler Stub.session (Stub.reaction "1001" "👍" "M")) = [].
Proof.
  split; [reflexivity|].
  apply (C1_unsupported_emoji_noop
           (Stub.world (Ok {| http.StatusCode := 200;
                              http.Resp_Body := holaBody |}))
           Stub.handler Stub.session (Stub.reaction "1001" "👍" "M")).
  reflexivity.
Defined.

(** C2.  A reaction added by the bot's own user is ignored whatever its
    emoji: the handler performs no effect at all, hence no network call. *)
Theorem C2_own_reaction_noop
    (w : World) (h : DiscordHandler) (s : discordgo.Session)
    (r : discordgo.MessageReactionAdd) :
  discordgo.UserID r
  = discordgo.ID (discordgo.State_User (discordgo.Session_State s)) →
  trace (reactionAdd w h s r) = []
  ∧ ∀ e, e ∈ trace (reactionAdd w h s r) → is_network_call e = false.
Proof.
  intros Hself. rewrite reactionAdd_self by exact Hself. cbn.
  split; [reflexivity|]. intros e Hin. trace_inv Hin.
Qed.

Lemma C2_own_reaction_noop_witness :
  flagToLang !! "🇪🇸" = Some "Spanish"
  ∧ trace (reactionAdd
             (Stub.world (Ok {| http.StatusCode := 200;
                                http.Resp_Body := holaBody |}))
             Stub.handler Stub.session (Stub.reaction "9000" "🇪🇸" "M")) = [].
Proof.
  split; [reflexivity|].
  apply (C2_own_reaction_noop
           (Stub.world (Ok {| http.StatusCode := 200;
                              http.Resp_Body := holaBody |}))
           Stub.handler Stub.session (Stub.reaction "9000" "🇪🇸" "M")).
  reflexivity.
Defined.

(** C3.  When the emoji is supported and the fetched message has an empty
    [Content], the fetch is the only thing the handler does: the translation
    service is not called and nothing is posted.  For a reaction by another
    user the trace is exactly that one fetch. *)
Theorem C3_empty_content_noop
    (w : World) (h : DiscordHandler) (s : discordgo.Session)
    (r : discordgo.MessageReactionAdd) (targetLang : string)
    (msg : discordgo.Message) :
  flagToLang !! discordgo.Name (discordgo.Reaction_Emoji r) = Some targetLang →
  ChannelMessage w (discordgo.ChannelID r) (discordgo.MessageID r) = Ok msg →
  discordgo.Content msg = "" →
  (∀ e, e ∈ trace (reactionAdd w h s r) →
        e = FetchMessage (discordgo.ChannelID r) (discordgo.MessageID r))
  ∧ (∀ e, e ∈ trace (reactionAdd w h s r) →
          is_translation_call e = false ∧ is_reply e = false)
  ∧ (discordgo.UserID r
     ≠ discordgo.ID (discordgo.State_User (discordgo.Session_State s)) →
     trace (reactionAdd w h s r)
     = [FetchMessage (discordgo.ChannelID r) (discordgo.MessageID r)]).
Proof.
  intros Hlang Hfetch Hempty.
  destruct (decide (discordgo.UserID r
                    = discordgo.ID (discordgo.State_User (discordgo.Session_State s))))
    as [Hself|Hother].
  - rewrite reactionAdd_self by exact Hself. cbn.
    split; [|split].
    + intros e Hin. trace_inv Hin.
    + intros e Hin. trace_inv Hin.
    + intros Hother. contradiction.
  - rewrite (reactionAdd_empty_content w h s r targetLang msg) by assumption. cbn.
    split; [|split].
    + intros e Hin. trace_inv Hin. exact Hin.
    + intros e Hin. trace_inv Hin. subst e. split; reflexivity.
    + reflexivity.
Qed.

Lemma C3_empty_content_noop_witness :
  trace (reactionAdd
           (Stub.world (Ok {| http.StatusCode := 200;
                              http.Resp_Body := holaBody |}))
           Stub.handler Stub.session (Stub.reaction "1001" "🇪🇸" "M-image"))
  = [FetchMessage "C" "M-image"].
Proof.
  apply (C3_empty_content_noop
           (Stub.world (Ok {| http.StatusCode := 200;
                              http.Resp_Body := holaBody |}))
           Stub.handler Stub.session (Stub.reaction "1001" "🇪🇸" "M-image")
           "Spanish"
           {| discordgo.Message_Author := Stub.alice; discordgo.Content := "" |}).
  - reflexivity.
  - reflexivity.
  - reflexivity.
  - discriminate.
Defined.

(** C4.  End to end: another user reacts with the flag of Spain to message
    [M] of channel [C], whose content is "Hello there" and whose author is
    "Alice".  The translation client is run on ("Hello there", "Spanish",
    the configured credential); the service answers 200 with [holaBody],
    which decodes to the single candidate "Hola".  The handler then posts to
    channel [C] an embed whose description is "Hola", whose footer is
    "Translated to Spanish" and whose author name is "Alice". *)
Theorem C4_end_to_end_spanish
    (w : World) (h : DiscordHandler) (s : discordgo.Session)
    (r : discordgo.MessageReactionAdd) (C M : string)
    (msg : discordgo.Message) (jsonData : string) (resp : http.Response) :
  discordgo.UserID r
  ≠ discordgo.ID (discordgo.State_User (discordgo.Session_State s)) →
  discordgo.Name (discordgo.Reaction_Emoji r) = "🇪🇸" →
  discordgo.ChannelID r = C →
  discordgo.MessageID r = M →
  ChannelMessage w C M = Ok msg →
  discordgo.Content msg = "Hello there" →
  discordgo.Username (discordgo.Message_Author msg) = "Alice" →
  json_Marshal w (requestBody "Hello there" "Spanish") = Ok jsonData →
  NewRequest_error w "POST" "https://api.openai.com/v1/chat/completions" = None →
  client_Do w (sentRequest (OpenAIToken (config h)) jsonData) = Ok resp →
  http.StatusCode resp = 200%Z →
  http.Resp_Body resp = holaBody →
  json_Decode w holaBody
  = Ok {| Choices := [ {| Choice_Message := {| Choice_Content := "Hola" |} |} ] |} →
  translateWithOpenAI w "Hello there" "Spanish" (OpenAIToken (config h))
  = mkM ("Hola", None)
        [ Log "Translating text: Hello there";
          Log "Target language: Spanish";
          HTTPDo (sentRequest (OpenAIToken (config h)) jsonData);
          BodyDecode holaBody;
          BodyClose ]
  ∧ ∃ embed : discordgo.MessageEmbed,
      discordgo.Description embed = "Hola"
      ∧ discordgo.Text (discordgo.Footer embed) = "Translated to Spanish"
      ∧ discordgo.EmbedAuthor_Name (discordgo.Author embed) = "Alice"
      ∧ trace (reactionAdd w h s r)
        = [ FetchMessage C M;
            Log "Translating text: Hello there";
            Log "Target language: Spanish";
            HTTPDo (sentRequest (OpenAIToken (config h)) jsonData);
            BodyDecode holaBody;
            BodyClose;
            SendEmbed C embed ]
          ++ match ChannelMessageSendEmbed w C embed with
             | Some err => [Log ("Error sending translation: " +:+ err)]
             | None => []
             end.
Proof.
  intros Hother Hemoji HC HM Hfetch Hcontent Hauthor Hmarshal Hnew Hdo H200 Hbody
         Hdecode.
  assert (Hcall :
    translateWithOpenAI w "Hello there" "Spanish" (OpenAIToken (config h))
    = mkM ("Hola", None)
          [ Log "Translating text: Hello there";
            Log "Target language: Spanish";
            HTTPDo (sentRequest (OpenAIToken (config h)) jsonData);
            BodyDecode holaBody;
            BodyClose ]).
  { rewrite (translate_answered w _ _ _ jsonData resp Hmarshal Hnew Hdo).
    rewrite <- Hbody in Hdecode.
    rewrite (readResponse_first_choice w resp _ _ [] H200 Hdecode eq_refl).
    rewrite Hbody. reflexivity. }
  split; [exact Hcall|].
  exists (replyEmbed w msg "Hola" "Spanish").
  split; [reflexivity|]. split; [reflexivity|]. split; [exact Hauthor|].
  assert (Hlang : flagToLang !! discordgo.Name (discordgo.Reaction_Emoji r)
                  = Some "Spanish") by (rewrite Hemoji; reflexivity).
  rewrite <- HC, <- HM in Hfetch.
  assert (Hfull : discordgo.Content msg ≠ "") by (rewrite Hcontent; discriminate).
  rewrite (reactionAdd_translates w h s r "Spanish" msg Hother Hlang Hfetch Hfull).
  rewrite Hcontent, Hcall, HC, HM. reflexivity.
Qed.

Lemma C4_end_to_end_spanish_witness :
  let w := Stub.world (Ok {| http.StatusCode := 200; http.Resp_Body := holaBody |}) in
  let r := Stub.reaction "1001" "🇪🇸" "M" in
  ∃ embed : discordgo.MessageEmbed,
    discordgo.Description embed = "Hola"
    ∧ discordgo.Text (discordgo.Footer embed) = "Translated to Spanish"
    ∧ discordgo.EmbedAuthor_Name (discordgo.Author embed) = "Alice"
    ∧ SendEmbed "C" embed ∈ trace (reactionAdd w Stub.handler Stub.session r).
Proof.
  intros w r.
  destruct (C4_end_to_end_spanish w Stub.handler Stub.session r "C" "M"
              {| discordgo.Message_Author := Stub.alice;
                 discordgo.Content := "Hello there" |}
              Stub.helloSpanishJSON
              {| http.StatusCode := 200; http.Resp_Body := holaBody |})
    as [_ [embed (Hd & Hf & Ha & Htrace)]];
    [ discriminate | reflexivity | reflexivity | reflexivity | reflexivity
    | reflexivity | reflexivity | reflexivity | reflexivity | reflexivity
    | reflexivity | reflexivity | reflexivity | ].
  exists embed. split; [exact Hd|]. split; [exact Hf|]. split; [exact Ha|].
  rewrite Htrace. apply elem_of_app. left.
  do 6 apply list_elem_of_further. apply list_elem_of_here.
Defined.

(** C5.  For every text and target language the request body has the fixed
    model identifier and exactly one message, of role "user", whose content
    is the instruction prompt followed by the text; and it is the marshalled
    form of this very body that the client posts. *)
Theorem C5_request_has_one_user_message (text targetLang : string) :
  requestBody text targetLang
  = {| Model := "gpt-3.5-turbo";
       Messages :=
         [ {| Role := "user";
              Content := "Translate the following text to " +:+ targetLang
                         +:+ ". Only respond with the translation, nothing else: "
                         +:+ text |} ] |}
  ∧ length (Messages (requestBody text targetLang)) = 1
  ∧ ∀ (w : World) (openAIToken : string) (req : http.Request),
      HTTPDo req ∈ trace (translateWithOpenAI w text targetLang openAIToken) →
      json_Marshal w (requestBody text targetLang) = Ok (http.Body req)
      ∧ http.Method req = "POST"
      ∧ http.URL req = "https://api.openai.com/v1/chat/completions".
Proof.
  split; [reflexivity|]. split; [reflexivity|].
  intros w openAIToken req Hin.
  destruct (translate_HTTPDo_inv w text targetLang openAIToken req Hin)
    as (jsonData & Hmarshal & _ & ->).
  cbn. split; [exact Hmarshal|]. split; reflexivity.
Qed.

Lemma C5_request_has_one_user_message_witness :
  let w := Stub.world (Ok {| http.StatusCode := 200; http.Resp_Body := holaBody |}) in
  let req := sentRequest "sk-test"
    Stub.helloSpanishJSON in
  HTTPDo req ∈ trace (translateWithOpenAI w "Hello there" "Spanish" "sk-test")
  ∧ json_Marshal w (requestBody "Hello there" "Spanish") = Ok (http.Body req).
Proof.
  intros w req.
  assert (Hin : HTTPDo req
                ∈ trace (translateWithOpenAI w "Hello there" "Spanish" "sk-test")).
  { do 2 apply list_elem_of_further. apply list_elem_of_here. }
  split; [exact Hin|].
  destruct (C5_request_has_one_user_message "Hello there" "Spanish")
    as (_ & _ & Hposted).
  apply (Hposted w "sk-test" req Hin).
Defined.

(** C6.  Two supported emojis with the same target language lead to the
    same prompt for the same text, and hence to the same request body and
    the same run of the translation client; the flags of the United States
    and of the United Kingdom are such a pair, both mapped to "English".
    Two reactions that differ in nothing but such emojis are handled
    identically. *)
Theorem C6_same_language_same_prompt
    (emoji1 emoji2 lang1 lang2 : string) :
  flagToLang !! emoji1 = Some lang1 →
  flagToLang !! emoji2 = Some lang2 →
  lang1 = lang2 →
  (∀ text, prompt text lang1 = prompt text lang2)
  ∧ (∀ text, requestBody text lang1 = requestBody text lang2)
  ∧ (∀ w text openAIToken,
       translateWithOpenAI w text lang1 openAIToken
       = translateWithOpenAI w text lang2 openAIToken)
  ∧ (∀ w h s userID messageID channelID,
       reactionAdd w h s
         {| discordgo.UserID := userID; discordgo.MessageID := messageID;
            discordgo.Reaction_Emoji := {| discordgo.Name := emoji1 |};
            discordgo.ChannelID := channelID |}
       = reactionAdd w h s
           {| discordgo.UserID := userID; discordgo.MessageID := messageID;
              discordgo.Reaction_Emoji := {| discordgo.Name := emoji2 |};
              discordgo.ChannelID := channelID |}).
Proof.
  intros H1 H2 <-.
  split; [reflexivity|]. split; [reflexivity|]. split; [reflexivity|].
  intros w h s userID messageID channelID.
  unfold reactionAdd. cbn [discordgo.UserID discordgo.MessageID
    discordgo.Reaction_Emoji discordgo.ChannelID discordgo.Name].
  rewrite H1, H2. reflexivity.
Qed.

Lemma C6_same_language_same_prompt_witness :
  flagToLang !! "🇺🇸" = Some "English"
  ∧ flagToLang !! "🇬🇧" = Some "English"
  ∧ "🇺🇸" ≠ "🇬🇧"
  ∧ ∀ text, prompt text "English" = prompt text "English".
Proof.
  split; [reflexivity|]. split; [reflexivity|]. split; [discriminate|].
  apply (C6_same_language_same_prompt "🇺🇸" "🇬🇧" "English" "English");
    reflexivity.
Defined.

(** The status-code error determines the status code. *)
Lemma status_error_inj (code code' : Z) :
  "unexpected status code: " +:+ pretty code
  = "unexpected status code: " +:+ pretty code' →
  code = code'.
Proof. intros Heq. apply (inj pretty). exact (inj (String.app _) _ _ Heq). Qed.

(** A call of the client that reached the service and got [resp] back. *)
Lemma translate_HTTPDo_answered
    (w : World) (text targetLang openAIToken : string)
    (req : http.Request) (resp : http.Response) :
  HTTPDo req ∈ trace (translateWithOpenAI w text targetLang openAIToken) →
  client_Do w req = Ok resp →
  translateWithOpenAI w text targetLang openAIToken
  = mkM (result (readResponse w resp))
        ([ Log ("Translating text: " +:+ text);
           Log ("Target language: " +:+ targetLang) ]
         ++ [HTTPDo req] ++ trace (readResponse w resp) ++ [BodyClose]).
Proof.
  intros Hin Hdo.
  destruct (translate_HTTPDo_inv w text targetLang openAIToken req Hin)
    as (jsonData & Hmarshal & Hnew & ->).
  exact (translate_answered w text targetLang openAIToken jsonData resp
           Hmarshal Hnew Hdo).
Qed.

(** Every error of the client comes with the empty text. *)
Lemma translate_error_empty
    (w : World) (text targetLang openAIToken : string) (err : error) :
  (result (translateWithOpenAI w text targetLang openAIToken)).2 = Some err →
  (result (translateWithOpenAI w text targetLang openAIToken)).1 = "".
Proof.
  destruct (json_Marshal w (requestBody text targetLang)) as [jsonData|e1] eqn:E1.
  2:{ rewrite (translate_marshal_error w _ _ openAIToken e1 E1). reflexivity. }
  destruct (NewRequest_error w "POST" "https://api.openai.com/v1/chat/completions")
    as [e2|] eqn:E2.
  { rewrite (translate_request_error w _ _ openAIToken jsonData e2 E1 E2).
    reflexivity. }
  destruct (client_Do w (sentRequest openAIToken jsonData)) as [resp|e3] eqn:E3.
  - rewrite (translate_answered w _ _ _ jsonData resp E1 E2 E3). cbn [result].
    apply readResponse_error_empty.
  - rewrite (translate_transport_error w _ _ _ jsonData e3 E1 E2 E3). reflexivity.
Qed.

(** C7.  When the service answers a call with a status other than 200, the
    client returns an error, and the error message ends with the decimal
    status code: no other status code gives the same error. *)
Theorem C7_non_200_error_carries_status
    (w : World) (text targetLang openAIToken : string)
    (req : http.Request) (resp : http.Response) :
  HTTPDo req ∈ trace (translateWithOpenAI w text targetLang openAIToken) →
  client_Do w req = Ok resp →
  http.StatusCode resp ≠ 200%Z →
  result (translateWithOpenAI w text targetLang openAIToken)
  = ("", Some ("unexpected status code: " +:+ pretty (http.StatusCode resp)))
  ∧ ∀ code : Z,
      "unexpected status code: " +:+ pretty code
      = "unexpected status code: " +:+ pretty (http.StatusCode resp) →
      code = http.StatusCode resp.
Proof.
  intros Hin Hdo Hne.
  rewrite (translate_HTTPDo_answered w _ _ _ req resp Hin Hdo).
  rewrite (readResponse_status w resp Hne). cbn [result].
  split; [reflexivity|]. intros code. apply status_error_inj.
Qed.

Lemma C7_non_200_error_carries_status_witness :
  let w := Stub.world (Ok {| http.StatusCode := 500;
                             http.Resp_Body := "Internal Server Error" |}) in
  result (translateWithOpenAI w "Hello there" "Spanish" "sk-test")
  = ("", Some "unexpected status code: 500").
Proof.
  intros w.
  apply (C7_non_200_error_carries_status w "Hello there" "Spanish" "sk-test"
           (sentRequest "sk-test"
              Stub.helloSpanishJSON)
           {| http.StatusCode := 500; http.Resp_Body := "Internal Server Error" |}).
  - do 2 apply list_elem_of_further. apply list_elem_of_here.
  - reflexivity.
  - discriminate.
Defined.

(** The client always starts by logging its two arguments. *)
Lemma translate_trace_logs (w : World) (text targetLang openAIToken : string) :
  ∃ rest,
    trace (translateWithOpenAI w text targetLang openAIToken)
    = Log ("Translating text: " +:+ text)
      :: Log ("Target language: " +:+ targetLang) :: rest.
Proof. unfold translateWithOpenAI. run. eexists. reflexivity. Qed.

(** A handler run that reached the translation service went through every
    filter first. *)
Lemma reactionAdd_HTTPDo_inv
    (w : World) (h : DiscordHandler) (s : discordgo.Session)
    (r : discordgo.MessageReactionAdd) (req : http.Request) :
  HTTPDo req ∈ trace (reactionAdd w h s r) →
  ∃ targetLang msg,
    discordgo.UserID r
    ≠ discordgo.ID (discordgo.State_User (discordgo.Session_State s))
    ∧ flagToLang !! discordgo.Name (discordgo.Reaction_Emoji r) = Some targetLang
    ∧ ChannelMessage w (discordgo.ChannelID r) (discordgo.MessageID r) = Ok msg
    ∧ discordgo.Content msg ≠ ""
    ∧ HTTPDo req ∈ trace (translateWithOpenAI w (discordgo.Content msg) targetLang
                            (OpenAIToken (config h))).
Proof.
  intros Hin.
  destruct (decide (discordgo.UserID r
                    = discordgo.ID (discordgo.State_User (discordgo.Session_State s))))
    as [Hself|Hother].
  { rewrite reactionAdd_self in Hin by exact Hself. cbn in Hin. trace_inv Hin. }
  destruct (flagToLang !! discordgo.Name (discordgo.Reaction_Emoji r))
    as [targetLang|] eqn:Hlang.
  2:{ rewrite reactionAdd_unsupported in Hin by exact Hlang. cbn in Hin.
      trace_inv Hin. }
  destruct (ChannelMessage w (discordgo.ChannelID r) (discordgo.MessageID r))
    as [msg|err] eqn:Hfetch.
  2:{ rewrite (reactionAdd_fetch_error w h s r targetLang err) in Hin by assumption.
      cbn in Hin. trace_inv Hin. }
  destruct (decide (discordgo.Content msg = "")) as [Hempty|Hfull].
  { rewrite (reactionAdd_empty_content w h s r targetLang msg) in Hin by assumption.
    cbn in Hin. trace_inv Hin. }
  rewrite (reactionAdd_translates w h s r targetLang msg) in Hin by assumption.
  exists targetLang, msg.
  split; [exact Hother|]. split; [reflexivity|]. split; [reflexivity|].
  split; [exact Hfull|].
  apply elem_of_cons in Hin as [Hin|Hin]; [discriminate|].
  apply elem_of_app in Hin as [Hin|Hin]; [exact Hin|].
  exfalso. unfold afterTranslate in Hin.
  repeat case_match; trace_inv Hin.
Qed.

(** C8.  When the service answers 200 with a body that decodes to zero
    candidates, the client returns the error "no translation returned" and
    no text; a handler run that received this answer posts no reply. *)
Theorem C8_zero_candidates_no_reply
    (w : World) (req : http.Request) (resp : http.Response)
    (response : OpenAIResponse) :
  client_Do w req = Ok resp →
  http.StatusCode resp = 200%Z →
  json_Decode w (http.Resp_Body resp) = Ok response →
  Choices response = [] →
  (∀ text targetLang openAIToken,
     HTTPDo req ∈ trace (translateWithOpenAI w text targetLang openAIToken) →
     result (translateWithOpenAI w text targetLang openAIToken)
     = ("", Some "no translation returned"))
  ∧ (∀ h s r,
       HTTPDo req ∈ trace (reactionAdd w h s r) →
       ∀ e, e ∈ trace (reactionAdd w h s r) → is_reply e = false).
Proof.
  intros Hdo H200 Hdecode Hzero.
  assert (Hclient : ∀ text targetLang openAIToken,
    HTTPDo req ∈ trace (translateWithOpenAI w text targetLang openAIToken) →
    translateWithOpenAI w text targetLang openAIToken
    = mkM ("", Some "no translation returned")
          [ Log ("Translating text: " +:+ text);
            Log ("Target language: " +:+ targetLang);
            HTTPDo req; BodyDecode (http.Resp_Body resp); BodyClose ]).
  { intros text targetLang openAIToken Hin.
    rewrite (translate_HTTPDo_answered w _ _ _ req resp Hin Hdo).
    rewrite (readResponse_no_choice w resp response H200 Hdecode Hzero).
    reflexivity. }
  split.
  - intros text targetLang openAIToken Hin. rewrite (Hclient _ _ _ Hin). reflexivity.
  - intros h s r Hin e He.
    destruct (reactionAdd_HTTPDo_inv w h s r req Hin)
      as (targetLang & msg & Hother & Hlang & Hfetch & Hfull & Hcall).
    rewrite (reactionAdd_translates w h s r targetLang msg) in He by assumption.
    rewrite (Hclient _ _ _ Hcall) in He. cbn in He.
    trace_inv He; subst e; reflexivity.
Qed.

Lemma C8_zero_candidates_no_reply_witness :
  let w := Stub.world (Ok {| http.StatusCode := 200;
                             http.Resp_Body := noChoiceBody |}) in
  let req := sentRequest "sk-test"
    Stub.helloSpanishJSON in
  result (translateWithOpenAI w "Hello there" "Spanish" "sk-test")
  = ("", Some "no translation returned")
  ∧ HTTPDo req
    ∈ trace (reactionAdd w Stub.handler Stub.session (Stub.reaction "1001" "🇪🇸" "M"))
  ∧ ∀ e, e ∈ trace (reactionAdd w Stub.handler Stub.session
                      (Stub.reaction "1001" "🇪🇸" "M")) →
         is_reply e = false.
Proof.
  intros w req.
  destruct (C8_zero_candidates_no_reply w req
              {| http.StatusCode := 200; http.Resp_Body := noChoiceBody |}
              {| Choices := [] |})
    as [Hclient Hrouter];
    [ reflexivity | reflexivity | reflexivity | reflexivity | ].
  assert (Hin : HTTPDo req
                ∈ trace (reactionAdd w Stub.handler Stub.session
                           (Stub.reaction "1001" "🇪🇸" "M"))).
  { do 3 apply list_elem_of_further. apply list_elem_of_here. }
  split; [|split].
  - apply Hclient. do 2 apply list_elem_of_further. apply list_elem_of_here.
  - exact Hin.
  - apply Hrouter. exact Hin.
Defined.

Lemma whitespace_only_nonempty (content : string) :
  whitespace_only content = true → content ≠ "".
Proof. destruct content; [discriminate | intros _; discriminate]. Qed.

(** C9.  The empty-content filter compares with the empty string and
    nothing else: after a successful fetch the handler stops at the filter
    exactly when the content is empty.  A content made of white space only
    passes the filter, and the translation client is run on that very
    content, as its first log line shows. *)
Theorem C9_whitespace_content_is_translated
    (w : World) (h : DiscordHandler) (s : discordgo.Session)
    (r : discordgo.MessageReactionAdd) (targetLang : string)
    (msg : discordgo.Message) :
  discordgo.UserID r
  ≠ discordgo.ID (discordgo.State_User (discordgo.Session_State s)) →
  flagToLang !! discordgo.Name (discordgo.Reaction_Emoji r) = Some targetLang →
  ChannelMessage w (discordgo.ChannelID r) (discordgo.MessageID r) = Ok msg →
  let fetch := FetchMessage (discordgo.ChannelID r) (discordgo.MessageID r) in
  let call := translateWithOpenAI w (discordgo.Content msg) targetLang
                (OpenAIToken (config h)) in
  (trace (reactionAdd w h s r) = [fetch] ↔ discordgo.Content msg = "")
  ∧ (whitespace_only (discordgo.Content msg) = true →
     trace (reactionAdd w h s r)
     = fetch :: trace call
             ++ afterTranslate w (discordgo.ChannelID r) msg targetLang (result call)
     ∧ ∃ rest,
         trace (reactionAdd w h s r)
         = fetch :: Log ("Translating text: " +:+ discordgo.Content msg)
                 :: Log ("Target language: " +:+ targetLang) :: rest).
Proof.
  intros Hother Hlang Hfetch fetch call.
  assert (Hgo : discordgo.Content msg ≠ "" →
    trace (reactionAdd w h s r)
    = fetch :: trace call
            ++ afterTranslate w (discordgo.ChannelID r) msg targetLang (result call)
    ∧ ∃ rest,
        trace (reactionAdd w h s r)
        = fetch :: Log ("Translating text: " +:+ discordgo.Content msg)
                :: Log ("Target language: " +:+ targetLang) :: rest).
  { intros Hfull.
    pose proof (reactionAdd_translates w h s r targetLang msg
                  Hother Hlang Hfetch Hfull) as Htrace.
    cbv zeta in Htrace. fold call fetch in Htrace.
    split; [exact Htrace|].
    destruct (translate_trace_logs w (discordgo.Content msg) targetLang
                (OpenAIToken (config h))) as [rest Hlogs].
    fold call in Hlogs. rewrite Htrace, Hlogs. eexists. reflexivity. }
  split.
  - split.
    + intros Hstop.
      destruct (decide (discordgo.Content msg = "")) as [Hempty|Hfull];
        [exact Hempty|].
      destruct (Hgo Hfull) as [_ [rest Hlogs]].
      rewrite Hlogs in Hstop. discriminate.
    + intros Hempty.
      rewrite (reactionAdd_empty_content w h s r targetLang msg) by assumption.
      reflexivity.
  - intros Hblank. apply Hgo. apply whitespace_only_nonempty. exact Hblank.
Qed.

Lemma C9_whitespace_content_is_translated_witness :
  let w := Stub.world (Ok {| http.StatusCode := 200; http.Resp_Body := holaBody |}) in
  let r := Stub.reaction "1001" "🇪🇸" "M-blank" in
  ∃ rest,
    trace (reactionAdd w Stub.handler Stub.session r)
    = FetchMessage "C" "M-blank"
      :: Log "Translating text:   " :: Log "Target language: Spanish" :: rest.
Proof.
  intros w r.
  destruct (C9_whitespace_content_is_translated w Stub.handler Stub.session r
              "Spanish"
              {| discordgo.Message_Author := Stub.alice;
                 discordgo.Content := "  " |})
    as [_ Hblank]; [ discriminate | reflexivity | reflexivity | ].
  destruct (Hblank eq_refl) as [_ Hlogs]. exact Hlogs.
Defined.

(** C10.  The status check comes before the decoding.  When the service
    answers with a status other than 200, the client returns the
    status-code error, the body is never decoded, and the error is neither
    a decoding error nor the zero-candidates error.  Moreover, whatever
    error the client returns, the text returned with it is empty. *)
Theorem C10_status_check_before_decoding
    (w : World) (text targetLang openAIToken : string) :
  let call := translateWithOpenAI w text targetLang openAIToken in
  (∀ req resp,
     HTTPDo req ∈ trace call →
     client_Do w req = Ok resp →
     http.StatusCode resp ≠ 200%Z →
     (result call).2
     = Some ("unexpected status code: " +:+ pretty (http.StatusCode resp))
     ∧ (∀ body, BodyDecode body ∉ trace call)
     ∧ (∀ err, (result call).2 ≠ Some ("error decoding response: " +:+ err))
     ∧ (result call).2 ≠ Some "no translation returned")
  ∧ (∀ err, (result call).2 = Some err → (result call).1 = "").
Proof.
  intros call. split.
  - intros req resp Hin Hdo Hne. subst call.
    rewrite (translate_HTTPDo_answered w _ _ _ req resp Hin Hdo).
    rewrite (readResponse_status w resp Hne). cbn [result trace snd app].
    split; [reflexivity|]. split; [|split].
    + intros body Hbody. trace_inv Hbody.
    + intros err Heq. discriminate Heq.
    + intros Heq. discriminate Heq.
  - intros err. apply translate_error_empty.
Qed.

Lemma C10_status_check_before_decoding_witness :
  let w := Stub.world (Ok {| http.StatusCode := 500; http.Resp_Body := holaBody |}) in
  let call := translateWithOpenAI w "Hello there" "Spanish" "sk-test" in
  result call = ("", Some "unexpected status code: 500")
  ∧ ∀ body, BodyDecode body ∉ trace call.
Proof.
  intros w call.
  destruct (C10_status_check_before_decoding w "Hello there" "Spanish" "sk-test")
    as [Hstatus _].
  destruct (Hstatus
              (sentRequest "sk-test"
                 Stub.helloSpanishJSON)
              {| http.StatusCode := 500; http.Resp_Body := holaBody |})
    as (_ & Hnodecode & _);
    [ do 2 apply list_elem_of_further; apply list_elem_of_here
    | reflexivity | discriminate | ].
  split; [reflexivity | exact Hnodecode].
Defined.

(** * Further properties of the translation client *)

(** The four ways a run of the client can go, and the four ways the
    reading of an answer can go. *)
Ltac client_cases w text targetLang openAIToken :=
  let jsonData := fresh "jsonData" in
  let resp := fresh "resp" in
  let e := fresh "err" in
  let Hmarshal := fresh "Hmarshal" in
  let Hnew := fresh "Hnew" in
  let Hdo := fresh "Hdo" in
  destruct (json_Marshal w (requestBody text targetLang))
    as [jsonData|e] eqn:Hmarshal;
  [ destruct (NewRequest_error w "POST"
                "https://api.openai.com/v1/chat/completions") as [e|] eqn:Hnew;
    [ rewrite ?(translate_request_error w text targetLang openAIToken
                  jsonData e Hmarshal Hnew) in *
    | destruct (client_Do w (sentRequest openAIToken jsonData))
        as [resp|e] eqn:Hdo;
      [ rewrite ?(translate_answered w text targetLang openAIToken
                    jsonData resp Hmarshal Hnew Hdo) in *
      | rewrite ?(translate_transport_error w text targetLang openAIToken
                    jsonData e Hmarshal Hnew Hdo) in * ] ]
  | rewrite ?(translate_marshal_error w text targetLang openAIToken
                e Hmarshal) in * ].

Ltac reader_cases w resp :=
  let e := fresh "err" in
  let response := fresh "response" in
  let choice := fresh "choice" in
  let rest := fresh "rest" in
  let Hstatus := fresh "Hstatus" in
  let Hdecode := fresh "Hdecode" in
  let Hchoices := fresh "Hchoices" in
  destruct (decide (http.StatusCode resp = 200%Z)) as [Hstatus|Hstatus];
  [ destruct (json_Decode w (http.Resp_Body resp)) as [response|e] eqn:Hdecode;
    [ destruct (Choices response) as [|choice rest] eqn:Hchoices;
      [ rewrite ?(readResponse_no_choice w resp response Hstatus Hdecode Hchoices)
          in *
      | rewrite ?(readResponse_first_choice w resp response choice rest
                    Hstatus Hdecode Hchoices) in * ]
    | rewrite ?(readResponse_decode_error w resp e Hstatus Hdecode) in * ]
  | rewrite ?(readResponse_status w resp Hstatus) in * ].

(** X6.  The client makes no HTTP call when the request cannot be
    marshalled or created, and exactly one call, with the request built
    from the marshalled body, in every other case. *)
Theorem client_calls_service_at_most_once
    (w : World) (text targetLang openAIToken : string) :
  let call := translateWithOpenAI w text targetLang openAIToken in
  let logs := [ Log ("Translating text: " +:+ text);
                Log ("Target language: " +:+ targetLang) ] in
  (∀ err, json_Marshal w (requestBody text targetLang) = Err err →
          call = mkM ("", Some ("error marshaling request: " +:+ err)) logs)
  ∧ (∀ jsonData err,
       json_Marshal w (requestBody text targetLang) = Ok jsonData →
       NewRequest_error w "POST" "https://api.openai.com/v1/chat/completions"
       = Some err →
       call = mkM ("", Some ("error creating request: " +:+ err)) logs)
  ∧ (∀ jsonData,
       json_Marshal w (requestBody text targetLang) = Ok jsonData →
       NewRequest_error w "POST" "https://api.openai.com/v1/chat/completions"
       = None →
       List.filter is_translation_call (trace call)
       = [HTTPDo (sentRequest openAIToken jsonData)])
  ∧ length (List.filter is_translation_call (trace call)) ≤ 1.
Proof.
  intros call logs. subst call logs.
  split; [|split; [|split]].
  - intros err E. exact (translate_marshal_error w _ _ _ err E).
  - intros jsonData err E1 E2. exact (translate_request_error w _ _ _ _ err E1 E2).
  - intros jsonData' E1 E2.
    client_cases w text targetLang openAIToken; try congruence;
      assert (jsonData' = jsonData) as -> by congruence; cbn.
    + reader_cases w resp; reflexivity.
    + reflexivity.
  - client_cases w text targetLang openAIToken; cbn; try lia.
    reader_cases w resp; cbn; lia.
Qed.

Lemma client_calls_service_at_most_once_witness :
  List.filter is_translation_call
    (trace (translateWithOpenAI
              (Stub.world (Err "dial tcp: connection refused"))
              "Hello there" "Spanish" "sk-test"))
  = [HTTPDo (sentRequest "sk-test" Stub.helloSpanishJSON)].
Proof.
  destruct (client_calls_service_at_most_once
              (Stub.world (Err "dial tcp: connection refused"))
              "Hello there" "Spanish" "sk-test") as (_ & _ & Hone & _).
  apply (Hone Stub.helloSpanishJSON); reflexivity.
Defined.

(** X7.  Whatever happens, the client writes exactly two log lines: the
    text and the target language.  The credential, the response and the
    errors are never logged by the client. *)
Theorem client_logs_two_lines
    (w : World) (text targetLang openAIToken : string) :
  List.filter is_log (trace (translateWithOpenAI w text targetLang openAIToken))
  = [ Log ("Translating text: " +:+ text);
      Log ("Target language: " +:+ targetLang) ].
Proof.
  client_cases w text targetLang openAIToken; cbn; try reflexivity.
  reader_cases w resp; reflexivity.
Qed.

(** X8.  The response body is closed exactly when the service has answered,
    whatever the status and the body; it is then closed once, as the last
    thing the client does. *)
Theorem body_closed_iff_answered
    (w : World) (text targetLang openAIToken : string) :
  let call := translateWithOpenAI w text targetLang openAIToken in
  (BodyClose ∈ trace call
   ↔ ∃ req resp, HTTPDo req ∈ trace call ∧ client_Do w req = Ok resp)
  ∧ (BodyClose ∈ trace call →
     ∃ before, trace call = before ++ [BodyClose] ∧ BodyClose ∉ before).
Proof.
  intros call. subst call.
  client_cases w text targetLang openAIToken; cbn.
  - split.
    + split; [intros Hin; trace_inv Hin|].
      intros (req & resp & Hin & _). trace_inv Hin.
    + intros Hin. trace_inv Hin.
  - split.
    + split; [intros _|].
      * exists (sentRequest openAIToken jsonData), resp. split; [|exact Hdo].
        do 2 apply list_elem_of_further. apply list_elem_of_here.
      * intros _. do 3 apply list_elem_of_further.
        apply elem_of_app. right. apply list_elem_of_here.
    + intros _.
      exists ([ Log ("Translating text: " +:+ text);
                Log ("Target language: " +:+ targetLang);
                HTTPDo (sentRequest openAIToken jsonData) ]
              ++ trace (readResponse w resp)).
      split; [reflexivity|]. cbn. intros Hin.
      apply elem_of_cons in Hin as [Hin|Hin]; [discriminate|].
      apply elem_of_cons in Hin as [Hin|Hin]; [discriminate|].
      apply elem_of_cons in Hin as [Hin|Hin]; [discriminate|].
      apply readResponse_local in Hin. discriminate.
  - split.
    + split; [intros Hin; trace_inv Hin|].
      intros (req & resp & Hin & Hanswer). trace_inv Hin.
      injection Hin as ->. congruence.
    + intros Hin. trace_inv Hin.
  - split.
    + split; [intros Hin; trace_inv Hin|].
      intros (req & resp & Hin & _). trace_inv Hin.
    + intros Hin. trace_inv Hin.
Qed.

Lemma body_closed_iff_answered_witness :
  let call := translateWithOpenAI
                (Stub.world (Ok {| http.StatusCode := 503;
                                   http.Resp_Body := "Service Unavailable" |}))
                "Hello there" "Spanish" "sk-test" in
  ∃ before, trace call = before ++ [BodyClose] ∧ BodyClose ∉ before.
Proof.
  intros call.
  destruct (body_closed_iff_answered
              (Stub.world (Ok {| http.StatusCode := 503;
                                 http.Resp_Body := "Service Unavailable" |}))
              "Hello there" "Spanish" "sk-test") as [_ Hlast].
  apply Hlast. do 3 apply list_elem_of_further. apply list_elem_of_here.
Defined.

(** X9.  When the transport fails the client returns "error making
    request: " followed by the transport's error; it has sent the request
    once and touches no response body: nothing is decoded or closed. *)
Theorem transport_failure_stops_client
    (w : World) (text targetLang openAIToken : string)
    (req : http.Request) (err : error) :
  HTTPDo req ∈ trace (translateWithOpenAI w text targetLang openAIToken) →
  client_Do w req = Err err →
  translateWithOpenAI w text targetLang openAIToken
  = mkM ("", Some ("error making request: " +:+ err))
        [ Log ("Translating text: " +:+ text);
          Log ("Target language: " +:+ targetLang);
          HTTPDo req ].
Proof.
  intros Hin Hfail.
  destruct (translate_HTTPDo_inv w text targetLang openAIToken req Hin)
    as (jsonData & Hmarshal & Hnew & ->).
  exact (translate_transport_error w _ _ _ jsonData err Hmarshal Hnew Hfail).
Qed.

Lemma transport_failure_stops_client_witness :
  result (translateWithOpenAI (Stub.world (Err "dial tcp: connection refused"))
            "Hello there" "Spanish" "sk-test")
  = ("", Some "error making request: dial tcp: connection refused").
Proof.
  rewrite (transport_failure_stops_client
             (Stub.world (Err "dial tcp: connection refused"))
             "Hello there" "Spanish" "sk-test"
             (sentRequest "sk-test" Stub.helloSpanishJSON)
             "dial tcp: connection refused").
  - reflexivity.
  - do 2 apply list_elem_of_further. apply list_elem_of_here.
  - reflexivity.
Defined.

(** X10.  When the service answers 200 with a body that does not decode,
    the client returns "error decoding response: " followed by the
    decoder's error and no text; the body has been read once and closed. *)
Theorem undecodable_body_is_an_error
    (w : World) (text targetLang openAIToken : string)
    (req : http.Request) (resp : http.Response) (err : error) :
  HTTPDo req ∈ trace (translateWithOpenAI w text targetLang openAIToken) →
  client_Do w req = Ok resp →
  http.StatusCode resp = 200%Z →
  json_Decode w (http.Resp_Body resp) = Err err →
  translateWithOpenAI w text targetLang openAIToken
  = mkM ("", Some ("error decoding response: " +:+ err))
        [ Log ("Translating text: " +:+ text);
          Log ("Target language: " +:+ targetLang);
          HTTPDo req;
          BodyDecode (http.Resp_Body resp);
          BodyClose ].
Proof.
  intros Hin Hdo H200 Hdecode.
  rewrite (translate_HTTPDo_answered w _ _ _ req resp Hin Hdo).
  rewrite (readResponse_decode_error w resp err H200 Hdecode). reflexivity.
Qed.

Lemma undecodable_body_is_an_error_witness :
  result (translateWithOpenAI
            (Stub.world (Ok {| http.StatusCode := 200;
                               http.Resp_Body := "<html>" |}))
            "Hello there" "Spanish" "sk-test")
  = ("", Some "error decoding response: invalid character").
Proof.
  rewrite (undecodable_body_is_an_error
             (Stub.world (Ok {| http.StatusCode := 200;
                                http.Resp_Body := "<html>" |}))
             "Hello there" "Spanish" "sk-test"
             (sentRequest "sk-test" Stub.helloSpanishJSON)
             {| http.StatusCode := 200; http.Resp_Body := "<html>" |}
             "invalid character").
  - reflexivity.
  - do 2 apply list_elem_of_further. apply list_elem_of_here.
  - reflexivity.
  - reflexivity.
  - reflexivity.
Defined.

(** X11.  On a 200 answer with at least one candidate the client returns
    the content of the first candidate unchanged, with a nil error; the
    other candidates play no part, and an empty content is returned as it
    is. *)
Theorem first_candidate_is_returned_verbatim
    (w : World) (text targetLang openAIToken : string)
    (req : http.Request) (resp : http.Response)
    (response : OpenAIResponse) (choice : Choice) (others : list Choice) :
  HTTPDo req ∈ trace (translateWithOpenAI w text targetLang openAIToken) →
  client_Do w req = Ok resp →
  http.StatusCode resp = 200%Z →
  json_Decode w (http.Resp_Body resp) = Ok response →
  Choices response = choice :: others →
  translateWithOpenAI w text targetLang openAIToken
  = mkM (Choice_Content (Choice_Message choice), None)
        [ Log ("Translating text: " +:+ text);
          Log ("Target language: " +:+ targetLang);
          HTTPDo req;
          BodyDecode (http.Resp_Body resp);
          BodyClose ].
Proof.
  intros Hin Hdo H200 Hdecode Hchoices.
  rewrite (translate_HTTPDo_answered w _ _ _ req resp Hin Hdo).
  rewrite (readResponse_first_choice w resp response choice others
             H200 Hdecode Hchoices).
  reflexivity.
Qed.

Lemma first_candidate_is_returned_verbatim_witness :
  result (translateWithOpenAI
            (Stub.world (Ok {| http.StatusCode := 200; http.Resp_Body := holaBody |}))
            "Hello there" "Spanish" "sk-test")
  = ("Hola", None).
Proof.
  rewrite (first_candidate_is_returned_verbatim
             (Stub.world (Ok {| http.StatusCode := 200;
                                http.Resp_Body := holaBody |}))
             "Hello there" "Spanish" "sk-test"
             (sentRequest "sk-test" Stub.helloSpanishJSON)
             {| http.StatusCode := 200; http.Resp_Body := holaBody |}
             {| Choices :=
                  [ {| Choice_Message := {| Choice_Content := "Hola" |} |} ] |}
             {| Choice_Message := {| Choice_Content := "Hola" |} |} []).
  - reflexivity.
  - do 2 apply list_elem_of_further. apply list_elem_of_here.
  - reflexivity.
  - reflexivity.
  - reflexivity.
  - reflexivity.
Defined.

(** X12.  Every request the client sends carries exactly two headers:
    [Content-Type: application/json] and [Authorization: Bearer] followed
    by the credential.  The credential can be read back from the request. *)
Theorem sent_request_headers
    (w : World) (text targetLang openAIToken : string) (req : http.Request) :
  HTTPDo req ∈ trace (translateWithOpenAI w text targetLang openAIToken) →
  http.Header req !! "Content-Type" = Some ["application/json"]
  ∧ http.Header req !! "Authorization" = Some ["Bearer " +:+ openAIToken]
  ∧ (∀ key, key ≠ "Content-Type" → key ≠ "Authorization" →
            http.Header req !! key = None)
  ∧ (∀ w' text' targetLang' openAIToken',
       HTTPDo req
       ∈ trace (translateWithOpenAI w' text' targetLang' openAIToken') →
       openAIToken' = openAIToken).
Proof.
  intros Hin.
  destruct (translate_HTTPDo_inv w text targetLang openAIToken req Hin)
    as (jsonData & _ & _ & ->).
  unfold sentRequest, setHeaders, http.Header_Set. cbn [http.Header].
  split; [|split; [|split]].
  - rewrite lookup_insert_ne by discriminate. apply lookup_insert_eq.
  - apply lookup_insert_eq.
  - intros key H1 H2.
    rewrite lookup_insert_ne by congruence.
    rewrite lookup_insert_ne by congruence. apply lookup_empty.
  - intros w' text' targetLang' openAIToken' Hin'.
    destruct (translate_HTTPDo_inv w' text' targetLang' openAIToken' _ Hin')
      as (jsonData' & _ & _ & Heq).
    apply (f_equal (λ r, http.Header r !! "Authorization")) in Heq.
    unfold sentRequest, setHeaders, http.Header_Set in Heq. cbn [http.Header] in Heq.
    rewrite !lookup_insert_eq in Heq.
    injection Heq as Heq. symmetry. exact (inj (String.app _) _ _ Heq).
Qed.

Lemma sent_request_headers_witness :
  http.Header (sentRequest "sk-test" Stub.helloSpanishJSON) !! "Authorization"
  = Some ["Bearer sk-test"].
Proof.
  apply (sent_request_headers
           (Stub.world (Err "dial tcp: connection refused"))
           "Hello there" "Spanish" "sk-test"
           (sentRequest "sk-test" Stub.helloSpanishJSON)).
  do 2 apply list_elem_of_further. apply list_elem_of_here.
Defined.

(** Each return of the client, with the error it gives. *)
Lemma translate_error_by_line
    (w : World) (text targetLang openAIToken : string) :
  let call := translateWithOpenAI w text targetLang openAIToken in
  let line := returnLine w text targetLang openAIToken in
  (line = 163 ∧ ∃ e, (result call).2 = Some ("error marshaling request: " +:+ e))
  ∨ (line = 168 ∧ ∃ e, (result call).2 = Some ("error creating request: " +:+ e))
  ∨ (line = 177 ∧ ∃ e, (result call).2 = Some ("error making request: " +:+ e))
  ∨ (line = 182 ∧ ∃ e, (result call).2 = Some ("unexpected status code: " +:+ e))
  ∨ (line = 187 ∧ ∃ e, (result call).2 = Some ("error decoding response: " +:+ e))
  ∨ (line = 191 ∧ (result call).2 = Some "no translation returned")
  ∨ (line = 194 ∧ (result call).2 = None).
Proof.
  intros call line. subst call line. unfold returnLine, http_NewRequest.
  client_cases w text targetLang openAIToken; cbn [result snd].
  - right. left. split; [reflexivity|]. eexists. reflexivity.
  - fold (sentRequest openAIToken jsonData). rewrite Hdo. unfold http.StatusOK.
    reader_cases w resp; cbn [result snd];
      (destruct (decide (http.StatusCode resp ≠ 200%Z)); [try contradiction|]);
      try contradiction.
    + do 5 right. left. split; reflexivity.
    + do 6 right. split; reflexivity.
    + do 4 right. left. split; [reflexivity|]. eexists. reflexivity.
    + do 3 right. left. split; [reflexivity|]. eexists. reflexivity.
  - fold (sentRequest openAIToken jsonData). rewrite Hdo.
    do 2 right. left. split; [reflexivity|]. eexists. reflexivity.
  - left. split; [reflexivity|]. eexists. reflexivity.
Qed.

(** X13.  The error of the client tells where it stopped: two runs,
    in any two worlds and on any inputs, that return the same error (or
    both none) returned from the same line, and the error is nil exactly
    when the run reached the final return. *)
Theorem error_identifies_return_line
    (w1 : World) (text1 targetLang1 openAIToken1 : string)
    (w2 : World) (text2 targetLang2 openAIToken2 : string) :
  ((result (translateWithOpenAI w1 text1 targetLang1 openAIToken1)).2 = None
   ↔ returnLine w1 text1 targetLang1 openAIToken1 = 194)
  ∧ ((result (translateWithOpenAI w1 text1 targetLang1 openAIToken1)).2
     = (result (translateWithOpenAI w2 text2 targetLang2 openAIToken2)).2 →
     returnLine w1 text1 targetLang1 openAIToken1
     = returnLine w2 text2 targetLang2 openAIToken2).
Proof.
  pose proof (translate_error_by_line w1 text1 targetLang1 openAIToken1) as H1.
  pose proof (translate_error_by_line w2 text2 targetLang2 openAIToken2) as H2.
  cbv zeta in H1, H2.
  split.
  - repeat match goal with
           | H : _ ∨ _ |- _ => destruct H as [H|H]
           | H : _ ∧ _ |- _ => destruct H as [? H]
           | H : ∃ _, _ |- _ => destruct H as [? H]
           end;
      split; intros Hx; congruence.
  - intros Heq.
    repeat match goal with
           | H : _ ∨ _ |- _ => destruct H as [H|H]
           | H : _ ∧ _ |- _ => destruct H as [? H]
           | H : ∃ _, _ |- _ => destruct H as [? H]
           end;
      try congruence;
      exfalso; rewrite H1, H2 in Heq; discriminate Heq.
Qed.

Lemma error_identifies_return_line_witness :
  returnLine (Stub.world (Ok {| http.StatusCode := 500; http.Resp_Body := "" |}))
    "Hello there" "Spanish" "sk-test"
  = returnLine (Stub.world (Ok {| http.StatusCode := 500; http.Resp_Body := "x" |}))
      "Bonjour" "German" "sk-other".
Proof.
  apply (error_identifies_return_line
           (Stub.world (Ok {| http.StatusCode := 500; http.Resp_Body := "" |}))
           "Hello there" "Spanish" "sk-test"
           (Stub.world (Ok {| http.StatusCode := 500; http.Resp_Body := "x" |}))
           "Bonjour" "German" "sk-other").
  reflexivity.
Defined.

(** The languages of the flag table. *)
Lemma flagToLang_language (emoji lang : string) :
  flagToLang !! emoji = Some lang →
  lang ∈ [ "English"; "Spanish"; "French"; "German"; "Italian"; "Japanese";
           "Korean"; "Chinese"; "Portuguese"; "Russian" ].
Proof.
  unfold flagToLang. intros Hlookup.
  apply elem_of_list_to_map_2 in Hlookup.
  repeat (apply elem_of_cons in Hlookup as [Hlookup|Hlookup];
          [ injection Hlookup as -> ->;
            repeat first [apply list_elem_of_here | apply list_elem_of_further]
          | ]).
  apply elem_of_nil in Hlookup. contradiction.
Qed.

(** X14.  For the languages of the flag table the prompt can be read in
    one way only: two prompts built for supported emojis are equal only if
    they name the same language and carry the same text. *)
Theorem supported_prompt_is_unambiguous
    (emoji1 emoji2 lang1 lang2 text1 text2 : string) :
  flagToLang !! emoji1 = Some lang1 →
  flagToLang !! emoji2 = Some lang2 →
  prompt text1 lang1 = prompt text2 lang2 →
  lang1 = lang2 ∧ text1 = text2.
Proof.
  intros H1 H2 Heq.
  apply flagToLang_language in H1. apply flagToLang_language in H2.
  unfold prompt in Heq. apply (inj (String.app _)) in Heq.
  repeat (apply elem_of_cons in H1 as [->|H1]);
    try (apply elem_of_nil in H1; contradiction);
    repeat (apply elem_of_cons in H2 as [->|H2]);
    try (apply elem_of_nil in H2; contradiction);
    first
      [ discriminate Heq
      | apply (inj (String.app _)) in Heq; apply (inj (String.app _)) in Heq;
        split; [reflexivity | exact Heq] ].
Qed.

Lemma supported_prompt_is_unambiguous_witness :
  "English" = "English" ∧ "Hello there" = "Hello there".
Proof.
  apply (supported_prompt_is_unambiguous "🇺🇸" "🇬🇧" "English" "English"
           "Hello there" "Hello there"); reflexivity.
Defined.

(** * Further properties of the reaction router *)

(** The client neither fetches nor posts. *)
Lemma translate_trace_local
    (w : World) (text targetLang openAIToken : string) (e : Event) :
  e ∈ trace (translateWithOpenAI w text targetLang openAIToken) →
  is_fetch e = false ∧ is_reply e = false.
Proof.
  client_cases w text targetLang openAIToken; cbn; intros Hin;
    try (trace_inv Hin; subst e; split; reflexivity).
  apply elem_of_cons in Hin as [->|Hin]; [split; reflexivity|].
  apply elem_of_cons in Hin as [->|Hin]; [split; reflexivity|].
  apply elem_of_cons in Hin as [->|Hin]; [split; reflexivity|].
  apply elem_of_app in Hin as [Hin|Hin].
  - apply readResponse_local in Hin. subst e. split; reflexivity.
  - trace_inv Hin. subst e. split; reflexivity.
Qed.

(** A nil error of the client comes from a 200 answer with a candidate. *)
Lemma translate_success_inv
    (w : World) (text targetLang openAIToken : string) :
  (result (translateWithOpenAI w text targetLang openAIToken)).2 = None →
  ∃ jsonData resp response choice others,
    client_Do w (sentRequest openAIToken jsonData) = Ok resp
    ∧ http.StatusCode resp = 200%Z
    ∧ json_Decode w (http.Resp_Body resp) = Ok response
    ∧ Choices response = choice :: others
    ∧ translateWithOpenAI w text targetLang openAIToken
      = mkM (Choice_Content (Choice_Message choice), None)
            [ Log ("Translating text: " +:+ text);
              Log ("Target language: " +:+ targetLang);
              HTTPDo (sentRequest openAIToken jsonData);
              BodyDecode (http.Resp_Body resp);
              BodyClose ].
Proof.
  client_cases w text targetLang openAIToken; cbn [result snd];
    try discriminate.
  reader_cases w resp; cbn [result snd]; try discriminate.
  intros _. exists jsonData, resp, response, choice, rest.
  repeat (split; [assumption || reflexivity|]). reflexivity.
Qed.

(** X1.  When the message cannot be fetched the event is dropped: the
    handler calls neither the translation service nor the posting call, and
    for a reaction by another user it does exactly two things, the fetch
    and one log line carrying the error. *)
Theorem fetch_failure_is_logged_and_dropped
    (w : World) (h : DiscordHandler) (s : discordgo.Session)
    (r : discordgo.MessageReactionAdd) (targetLang : string) (err : error) :
  flagToLang !! discordgo.Name (discordgo.Reaction_Emoji r) = Some targetLang →
  ChannelMessage w (discordgo.ChannelID r) (discordgo.MessageID r) = Err err →
  (∀ e, e ∈ trace (reactionAdd w h s r) →
        is_translation_call e = false ∧ is_reply e = false)
  ∧ (discordgo.UserID r
     ≠ discordgo.ID (discordgo.State_User (discordgo.Session_State s)) →
     trace (reactionAdd w h s r)
     = [ FetchMessage (discordgo.ChannelID r) (discordgo.MessageID r);
         Log ("Error fetching message: " +:+ err) ]).
Proof.
  intros Hlang Hfetch.
  destruct (decide (discordgo.UserID r
                    = discordgo.ID (discordgo.State_User (discordgo.Session_State s))))
    as [Hself|Hother].
  - rewrite reactionAdd_self by exact Hself. cbn. split.
    + intros e Hin. trace_inv Hin.
    + intros Hother. contradiction.
  - rewrite (reactionAdd_fetch_error w h s r targetLang err) by assumption. cbn.
    split; [|reflexivity].
    intros e Hin. trace_inv Hin; subst e; split; reflexivity.
Qed.

Lemma fetch_failure_is_logged_and_dropped_witness :
  trace (reactionAdd
           (Stub.world (Ok {| http.StatusCode := 200; http.Resp_Body := holaBody |}))
           Stub.handler Stub.session (Stub.reaction "1001" "🇫🇷" "M-deleted"))
  = [ FetchMessage "C" "M-deleted";
      Log "Error fetching message: HTTP 404 Not Found" ].
Proof.
  apply (fetch_failure_is_logged_and_dropped
           (Stub.world (Ok {| http.StatusCode := 200; http.Resp_Body := holaBody |}))
           Stub.handler Stub.session (Stub.reaction "1001" "🇫🇷" "M-deleted")
           "French" "HTTP 404 Not Found").
  - reflexivity.
  - reflexivity.
  - discriminate.
Defined.

(** X2.  Once a non-empty message has been fetched for a supported emoji,
    the handler posts a reply exactly when the client returns a nil error.
    On an error of the client, of whatever kind, the handler ends with one
    log line carrying that error and posts nothing. *)
Theorem reply_iff_translation_succeeded
    (w : World) (h : DiscordHandler) (s : discordgo.Session)
    (r : discordgo.MessageReactionAdd) (targetLang : string)
    (msg : discordgo.Message) :
  discordgo.UserID r
  ≠ discordgo.ID (discordgo.State_User (discordgo.Session_State s)) →
  flagToLang !! discordgo.Name (discordgo.Reaction_Emoji r) = Some targetLang →
  ChannelMessage w (discordgo.ChannelID r) (discordgo.MessageID r) = Ok msg →
  discordgo.Content msg ≠ "" →
  let fetch := FetchMessage (discordgo.ChannelID r) (discordgo.MessageID r) in
  let call := translateWithOpenAI w (discordgo.Content msg) targetLang
                (OpenAIToken (config h)) in
  ((∃ e, e ∈ trace (reactionAdd w h s r) ∧ is_reply e = true)
   ↔ (result call).2 = None)
  ∧ (∀ err, (result call).2 = Some err →
            trace (reactionAdd w h s r)
            = fetch :: trace call ++ [Log ("Error translating text: " +:+ err)]).
Proof.
  intros Hother Hlang Hfetch Hfull fetch call.
  pose proof (reactionAdd_translates w h s r targetLang msg
                Hother Hlang Hfetch Hfull) as Htrace.
  cbv zeta in Htrace. fold call fetch in Htrace. rewrite Htrace.
  pose proof (translate_trace_local w (discordgo.Content msg) targetLang
                (OpenAIToken (config h))) as Hlocal.
  fold call in Hlocal.
  destruct (result call) as [translation [err|]] eqn:Hresult; cbn [snd].
  - split.
    + split; [|discriminate].
      intros (e & Hin & Hreply). exfalso.
      apply elem_of_cons in Hin as [->|Hin]; [discriminate|].
      apply elem_of_app in Hin as [Hin|Hin].
      * apply Hlocal in Hin. destruct Hin as [_ Hin]. congruence.
      * cbn in Hin. trace_inv Hin. subst e. discriminate.
    + intros err' [= <-]. reflexivity.
  - split; [|discriminate].
    split; [reflexivity|]. intros _.
    exists (SendEmbed (discordgo.ChannelID r)
              (replyEmbed w msg translation targetLang)).
    split; [|reflexivity].
    apply list_elem_of_further. apply elem_of_app. right. cbn.
    apply list_elem_of_here.
Qed.

Lemma reply_iff_translation_succeeded_witness :
  let w := Stub.world (Ok {| http.StatusCode := 429; http.Resp_Body := "" |}) in
  trace (reactionAdd w Stub.handler Stub.session (Stub.reaction "1001" "🇪🇸" "M"))
  = FetchMessage "C" "M"
    :: trace (translateWithOpenAI w "Hello there" "Spanish" "sk-test")
    ++ [Log "Error translating text: unexpected status code: 429"].
Proof.
  intros w.
  destruct (reply_iff_translation_succeeded w Stub.handler Stub.session
              (Stub.reaction "1001" "🇪🇸" "M") "Spanish"
              {| discordgo.Message_Author := Stub.alice;
                 discordgo.Content := "Hello there" |})
    as [_ Hdrop]; [ discriminate | reflexivity | reflexivity | discriminate | ].
  apply (Hdrop "unexpected status code: 429"). reflexivity.
Defined.

(** X3.  Whatever the handler posts is a translation the service gave: any
    embed it sends goes to the channel of the reaction, for a reaction by
    another user with a supported emoji on a fetched, non-empty message;
    its description is the first candidate of a decoded 200 answer, its
    author name is the name of the message's author, its footer names the
    language of the emoji and its colour is 0x00BFFF. *)
Theorem posted_embed_is_first_candidate
    (w : World) (h : DiscordHandler) (s : discordgo.Session)
    (r : discordgo.MessageReactionAdd)
    (channelID : string) (embed : discordgo.MessageEmbed) :
  SendEmbed channelID embed ∈ trace (reactionAdd w h s r) →
  channelID = discordgo.ChannelID r
  ∧ discordgo.UserID r
    ≠ discordgo.ID (discordgo.State_User (discordgo.Session_State s))
  ∧ ∃ targetLang msg req resp response choice others,
      flagToLang !! discordgo.Name (discordgo.Reaction_Emoji r) = Some targetLang
      ∧ ChannelMessage w (discordgo.ChannelID r) (discordgo.MessageID r) = Ok msg
      ∧ discordgo.Content msg ≠ ""
      ∧ HTTPDo req ∈ trace (reactionAdd w h s r)
      ∧ client_Do w req = Ok resp
      ∧ http.StatusCode resp = 200%Z
      ∧ json_Decode w (http.Resp_Body resp) = Ok response
      ∧ Choices response = choice :: others
      ∧ discordgo.Description embed = Choice_Content (Choice_Message choice)
      ∧ discordgo.EmbedAuthor_Name (discordgo.Author embed)
        = discordgo.Username (discordgo.Message_Author msg)
      ∧ discordgo.Text (discordgo.Footer embed) = "Translated to " +:+ targetLang
      ∧ discordgo.Color embed = 0x00BFFF%Z.
Proof.
  intros Hin.
  destruct (decide (discordgo.UserID r
                    = discordgo.ID (discordgo.State_User (discordgo.Session_State s))))
    as [Hself|Hother].
  { rewrite reactionAdd_self in Hin by exact Hself. cbn in Hin. trace_inv Hin. }
  destruct (flagToLang !! discordgo.Name (discordgo.Reaction_Emoji r))
    as [targetLang|] eqn:Hlang.
  2:{ rewrite reactionAdd_unsupported in Hin by exact Hlang. cbn in Hin.
      trace_inv Hin. }
  destruct (ChannelMessage w (discordgo.ChannelID r) (discordgo.MessageID r))
    as [msg|err] eqn:Hfetch.
  2:{ rewrite (reactionAdd_fetch_error w h s r targetLang err) in Hin by assumption.
      cbn in Hin. trace_inv Hin. }
  destruct (decide (discordgo.Content msg = "")) as [Hempty|Hfull].
  { rewrite (reactionAdd_empty_content w h s r targetLang msg) in Hin by assumption.
    cbn in Hin. trace_inv Hin. }
  pose proof (reactionAdd_translates w h s r targetLang msg
                Hother Hlang Hfetch Hfull) as Htrace.
  cbv zeta in Htrace. rewrite Htrace in Hin |- *.
  apply elem_of_cons in Hin as [Hin|Hin]; [discriminate|].
  apply elem_of_app in Hin as [Hin|Hin].
  { apply translate_trace_local in Hin. destruct Hin as [_ Hin]. discriminate. }
  destruct (result (translateWithOpenAI w (discordgo.Content msg) targetLang
                      (OpenAIToken (config h))))
    as [translation [err|]] eqn:Hresult.
  { cbn in Hin. trace_inv Hin. }
  destruct (translate_success_inv w (discordgo.Content msg) targetLang
              (OpenAIToken (config h)))
    as (jsonData & resp & response & choice & others
        & Hdo & H200 & Hdecode & Hchoices & Hcall).
  { rewrite Hresult. reflexivity. }
  rewrite Hcall in Hresult. cbn in Hresult. injection Hresult as <-.
  assert (Hembed : channelID = discordgo.ChannelID r
                   ∧ embed = replyEmbed w msg
                               (Choice_Content (Choice_Message choice)) targetLang).
  { unfold afterTranslate in Hin.
    apply elem_of_cons in Hin as [Hin|Hin].
    - injection Hin as -> ->. split; reflexivity.
    - destruct (ChannelMessageSendEmbed w _ _); trace_inv Hin. }
  destruct Hembed as [-> ->].
  split; [reflexivity|]. split; [exact Hother|].
  exists targetLang, msg, (sentRequest (OpenAIToken (config h)) jsonData),
         resp, response, choice, others.
  split; [reflexivity|]. split; [reflexivity|]. split; [exact Hfull|].
  split.
  { rewrite Hcall. cbn. do 3 apply list_elem_of_further. apply list_elem_of_here. }
  split; [exact Hdo|]. split; [exact H200|]. split; [exact Hdecode|].
  split; [exact Hchoices|]. repeat split.
Qed.

Lemma posted_embed_is_first_candidate_witness :
  let w := Stub.world (Ok {| http.StatusCode := 200; http.Resp_Body := holaBody |}) in
  let embed := replyEmbed w {| discordgo.Message_Author := Stub.alice;
                               discordgo.Content := "Hello there" |}
                 "Hola" "Spanish" in
  SendEmbed "C" embed
  ∈ trace (reactionAdd w Stub.handler Stub.session (Stub.reaction "1001" "🇪🇸" "M"))
  ∧ "C" = discordgo.ChannelID (Stub.reaction "1001" "🇪🇸" "M").
Proof.
  intros w embed.
  assert (Hin : SendEmbed "C" embed
                ∈ trace (reactionAdd w Stub.handler Stub.session
                           (Stub.reaction "1001" "🇪🇸" "M"))).
  { do 6 apply list_elem_of_further. apply list_elem_of_here. }
  split; [exact Hin|].
  apply (posted_embed_is_first_candidate w Stub.handler Stub.session
           (Stub.reaction "1001" "🇪🇸" "M") "C" embed Hin).
Defined.

(** X4.  One event costs at most one call of each kind, in a fixed order:
    the network calls of a handler run are nothing, or the fetch, or the
    fetch and one translation request, or these two and one post to the
    channel of the reaction. *)
Theorem handler_network_calls_in_order
    (w : World) (h : DiscordHandler) (s : discordgo.Session)
    (r : discordgo.MessageReactionAdd) :
  let fetch := FetchMessage (discordgo.ChannelID r) (discordgo.MessageID r) in
  let calls := List.filter is_network_call (trace (reactionAdd w h s r)) in
  calls = []
  ∨ calls = [fetch]
  ∨ (∃ req, calls = [fetch; HTTPDo req])
  ∨ (∃ req embed,
       calls = [fetch; HTTPDo req; SendEmbed (discordgo.ChannelID r) embed]).
Proof.
  intros fetch calls. subst fetch calls.
  destruct (decide (discordgo.UserID r
                    = discordgo.ID (discordgo.State_User (discordgo.Session_State s))))
    as [Hself|Hother].
  { rewrite reactionAdd_self by exact Hself. left. reflexivity. }
  destruct (flagToLang !! discordgo.Name (discordgo.Reaction_Emoji r))
    as [targetLang|] eqn:Hlang.
  2:{ rewrite reactionAdd_unsupported by exact Hlang. left. reflexivity. }
  destruct (ChannelMessage w (discordgo.ChannelID r) (discordgo.MessageID r))
    as [msg|err] eqn:Hfetch.
  2:{ rewrite (reactionAdd_fetch_error w h s r targetLang err) by assumption.
      right. left. reflexivity. }
  destruct (decide (discordgo.Content msg = "")) as [Hempty|Hfull].
  { rewrite (reactionAdd_empty_content w h s r targetLang msg) by assumption.
    right. left. reflexivity. }
  pose proof (reactionAdd_translates w h s r targetLang msg
                Hother Hlang Hfetch Hfull) as Htrace.
  cbv zeta in Htrace. rewrite Htrace. clear Htrace.
  client_cases w (discordgo.Content msg) targetLang (OpenAIToken (config h));
    cbn [result trace afterTranslate app List.filter is_network_call is_fetch
         is_translation_call is_reply orb].
  - right. left. reflexivity.
  - reader_cases w resp;
      cbn [result trace afterTranslate app List.filter is_network_call is_fetch
           is_translation_call is_reply orb];
      try (right; right; left; eexists; reflexivity).
    right. right. right.
    destruct (ChannelMessageSendEmbed w _ _); cbn; do 2 eexists; reflexivity.
  - right. right. left. eexists. reflexivity.
  - right. left. reflexivity.
Qed.

(** The client posts nothing. *)
Lemma translate_no_reply (w : World) (text targetLang openAIToken : string) :
  List.filter is_reply (trace (translateWithOpenAI w text targetLang openAIToken))
  = [].
Proof.
  client_cases w text targetLang openAIToken; cbn; try reflexivity.
  reader_cases w resp; reflexivity.
Qed.

(** X5.  A post that fails is logged and not tried again: after a
    successful translation the handler sends the embed once and, when the
    platform refuses it, ends with one log line carrying the error. *)
Theorem post_failure_is_logged_not_retried
    (w : World) (h : DiscordHandler) (s : discordgo.Session)
    (r : discordgo.MessageReactionAdd) (targetLang : string)
    (msg : discordgo.Message) (translation : string) (err : error) :
  discordgo.UserID r
  ≠ discordgo.ID (discordgo.State_User (discordgo.Session_State s)) →
  flagToLang !! discordgo.Name (discordgo.Reaction_Emoji r) = Some targetLang →
  ChannelMessage w (discordgo.ChannelID r) (discordgo.MessageID r) = Ok msg →
  discordgo.Content msg ≠ "" →
  result (translateWithOpenAI w (discordgo.Content msg) targetLang
            (OpenAIToken (config h))) = (translation, None) →
  ChannelMessageSendEmbed w (discordgo.ChannelID r)
    (replyEmbed w msg translation targetLang) = Some err →
  trace (reactionAdd w h s r)
  = FetchMessage (discordgo.ChannelID r) (discordgo.MessageID r)
    :: trace (translateWithOpenAI w (discordgo.Content msg) targetLang
                (OpenAIToken (config h)))
    ++ [ SendEmbed (discordgo.ChannelID r) (replyEmbed w msg translation targetLang);
         Log ("Error sending translation: " +:+ err) ]
  ∧ List.filter is_reply (trace (reactionAdd w h s r))
    = [SendEmbed (discordgo.ChannelID r) (replyEmbed w msg translation targetLang)].
Proof.
  intros Hother Hlang Hfetch Hfull Hresult Hpost.
  pose proof (reactionAdd_translates w h s r targetLang msg
                Hother Hlang Hfetch Hfull) as Htrace.
  cbv zeta in Htrace. rewrite Htrace, Hresult.
  unfold afterTranslate. cbv zeta. rewrite Hpost.
  split; [reflexivity|].
  cbn [List.filter is_reply]. rewrite List.filter_app, translate_no_reply.
  reflexivity.
Qed.

Lemma post_failure_is_logged_not_retried_witness :
  let w := {| ChannelMessage := Stub.fetchMessage;
              AvatarURL := Stub.avatarURL;
              ChannelMessageSendEmbed := λ _ _, Some "HTTP 403 Forbidden";
              json_Marshal := Stub.marshal;
              NewRequest_error := λ _ _, None;
              client_Do := λ _, Ok {| http.StatusCode := 200;
                                      http.Resp_Body := holaBody |};
              json_Decode := Stub.decode |} in
  let r := Stub.reaction "1001" "🇪🇸" "M" in
  ∃ embed,
    List.filter is_reply (trace (reactionAdd w Stub.handler Stub.session r))
    = [SendEmbed "C" embed]
    ∧ last (trace (reactionAdd w Stub.handler Stub.session r))
      = Some (Log "Error sending translation: HTTP 403 Forbidden").
Proof.
  intros w r.
  destruct (post_failure_is_logged_not_retried w Stub.handler Stub.session r
              "Spanish"
              {| discordgo.Message_Author := Stub.alice;
                 discordgo.Content := "Hello there" |}
              "Hola" "HTTP 403 Forbidden")
    as [Htrace Hone];
    [ discriminate | reflexivity | reflexivity | discriminate | reflexivity
    | reflexivity | ].
  eexists. split; [exact Hone|]. rewrite Htrace. reflexivity.
Defined.

(** * Properties of [main] *)

Ltac main_cases b :=
  unfold main in *;
  destruct (envconfig_Process b) as [c|?] eqn:Hconfig;
  [ destruct (discordgo_New b ("Bot " +:+ DiscordToken c)) as [?|] eqn:Hnew;
    [ | destruct (dg_Open b) as [?|] eqn:Hopen;
        [ | destruct (delivered b) as [sig|] eqn:Hsignal ] ]
  | ];
  cbn [fst snd app] in *.

(** X15.  The exit status of [main] tells how the process ended.  It is 0
    exactly when the session was closed, which happens only after a signal
    was received; it is 1 exactly when the run ends with a fatal log line;
    and there is no status, the process still waiting, exactly when the
    connection was opened and no signal has come.  A start-up failure never
    closes the session. *)
Theorem main_exit_status (b : Boot) :
  ((main b).2 = Some 0%Z ↔ SessionClose ∈ (main b).1)
  ∧ (SessionClose ∈ (main b).1 →
     ∃ sig before, delivered b = Some sig
                   ∧ (main b).1 = before ++ [SignalReceive sig; SessionClose]
                   ∧ SessionOpen ∈ before)
  ∧ ((main b).2 = Some 1%Z ↔ ∃ line, last (main b).1 = Some (Fatal line))
  ∧ ((main b).2 = None
     ↔ SessionOpen ∈ (main b).1 ∧ dg_Open b = None ∧ delivered b = None).
Proof.
  main_cases b.
  - (* the session cannot be created *)
    split; [|split; [|split]].
    + split; [discriminate|]. intros Hin. trace_inv Hin.
    + intros Hin. trace_inv Hin.
    + split; [|reflexivity]. intros _. eexists. reflexivity.
    + split; [discriminate|]. intros [Hin _]. trace_inv Hin.
  - (* the connection cannot be opened *)
    split; [|split; [|split]].
    + split; [discriminate|]. intros Hin. trace_inv Hin.
    + intros Hin. trace_inv Hin.
    + split; [|reflexivity]. intros _. eexists. reflexivity.
    + split; [discriminate|]. intros (_ & Hopened & _). discriminate.
  - (* a signal arrives *)
    split; [|split; [|split]].
    + split; [|reflexivity]. intros _.
      do 6 apply list_elem_of_further. apply list_elem_of_here.
    + intros _.
      exists sig, [ SessionNew ("Bot " +:+ DiscordToken c);
                    SessionAddHandler {| config := c |};
                    SessionOpen;
                    Println "Bot is running. Press CTRL-C to exit.";
                    SignalNotify [SIGINT; SIGTERM] ].
      split; [reflexivity|]. split; [reflexivity|].
      do 2 apply list_elem_of_further. apply list_elem_of_here.
    + split; [discriminate|]. intros [line Hlast]. discriminate.
    + split; [discriminate|]. intros (_ & _ & Hnone). discriminate.
  - (* no signal yet *)
    split; [|split; [|split]].
    + split; [discriminate|]. intros Hin. trace_inv Hin.
    + intros Hin. trace_inv Hin.
    + split; [discriminate|]. intros [line Hlast]. discriminate.
    + split; [|reflexivity]. intros _. split; [|split; reflexivity].
      do 2 apply list_elem_of_further. apply list_elem_of_here.
  - (* a credential is missing *)
    split; [|split; [|split]].
    + split; [discriminate|]. intros Hin. trace_inv Hin.
    + intros Hin. trace_inv Hin.
    + split; [|reflexivity]. intros _. eexists. reflexivity.
    + split; [discriminate|]. intros [Hin _]. trace_inv Hin.
Qed.

Lemma main_exit_status_witness :
  (main stubBoot).2 = Some 0%Z
  ∧ ∃ sig before, delivered stubBoot = Some sig
                  ∧ (main stubBoot).1 = before ++ [SignalReceive sig; SessionClose]
                  ∧ SessionOpen ∈ before.
Proof.
  destruct (main_exit_status stubBoot) as (Hzero & Hclosed & _ & _).
  assert (Hin : SessionClose ∈ (main stubBoot).1).
  { do 6 apply list_elem_of_further. apply list_elem_of_here. }
  split; [apply Hzero; exact Hin | apply Hclosed; exact Hin].
Defined.

(** X16.  The connection is opened only with everything in place: when
    [main] opens it, both credentials were loaded, the session was created
    with the token "Bot " followed by the Discord credential, and the
    reaction handler, holding the loaded configuration, was registered
    before the opening. *)
Theorem main_registers_before_opening (b : Boot) :
  SessionOpen ∈ (main b).1 →
  ∃ c rest,
    envconfig_Process b = Ok c
    ∧ discordgo_New b ("Bot " +:+ DiscordToken c) = None
    ∧ (main b).1
      = SessionNew ("Bot " +:+ DiscordToken c)
        :: SessionAddHandler {| config := c |}
        :: SessionOpen :: rest.
Proof.
  intros Hin. main_cases b; try (trace_inv Hin; fail);
    exists c; eexists;
    (split; [first [reflexivity | assumption]|]);
    (split; [first [reflexivity | assumption]|]);
    reflexivity.
Qed.

Lemma main_registers_before_opening_witness :
  ∃ c rest,
    envconfig_Process stubBoot = Ok c
    ∧ discordgo_New stubBoot ("Bot " +:+ DiscordToken c) = None
    ∧ (main stubBoot).1
      = SessionNew ("Bot " +:+ DiscordToken c)
        :: SessionAddHandler {| config := c |}
        :: SessionOpen :: rest.
Proof.
  apply (main_registers_before_opening stubBoot).
  do 2 apply list_elem_of_further. apply list_elem_of_here.
Defined.

(** The [Authorization] header of whatever the client sends. *)
Lemma translate_authorization
    (w : World) (text targetLang openAIToken : string) (req : http.Request) :
  HTTPDo req ∈ trace (translateWithOpenAI w text targetLang openAIToken) →
  http.Header req !! "Authorization" = Some ["Bearer " +:+ openAIToken].
Proof.
  intros Hin.
  destruct (translate_HTTPDo_inv w text targetLang openAIToken req Hin)
    as (jsonData & _ & _ & ->).
  unfold sentRequest, setHeaders, http.Header_Set. cbn [http.Header].
  apply lookup_insert_eq.
Qed.

(** X17.  The credential of the translation requests is the one loaded at
    start-up: for the handler that [main] registers, every request a
    handler run sends to the service carries [Authorization: Bearer]
    followed by the [OpenAIToken] of the loaded configuration, and the
    Discord credential is not what it carries unless the two are equal. *)
Theorem registered_handler_uses_loaded_credential
    (b : Boot) (h : DiscordHandler) :
  SessionAddHandler h ∈ (main b).1 →
  ∃ c,
    envconfig_Process b = Ok c
    ∧ config h = c
    ∧ ∀ (w : World) (s : discordgo.Session) (r : discordgo.MessageReactionAdd)
        (req : http.Request),
        HTTPDo req ∈ trace (reactionAdd w h s r) →
        http.Header req !! "Authorization" = Some ["Bearer " +:+ OpenAIToken c]
        ∧ (http.Header req !! "Authorization" = Some ["Bearer " +:+ DiscordToken c]
           → DiscordToken c = OpenAIToken c).
Proof.
  intros Hin.
  assert (Hh : ∃ c, envconfig_Process b = Ok c ∧ h = {| config := c |}).
  { main_cases b; try (trace_inv Hin; fail); exists c;
      (split; [first [reflexivity | assumption]|]);
      trace_inv Hin; congruence. }
  destruct Hh as (c & Hconfig & ->). exists c.
  split; [exact Hconfig|]. split; [reflexivity|].
  intros w s r req Hreq.
  destruct (reactionAdd_HTTPDo_inv w _ s r req Hreq)
    as (targetLang & msg & _ & _ & _ & _ & Hcall).
  cbn [config] in Hcall.
  pose proof (translate_authorization w _ _ _ req Hcall) as Hauth.
  split; [exact Hauth|].
  intros Hother. rewrite Hauth in Hother. injection Hother as Heq.
  symmetry. exact (inj (String.app _) _ _ Heq).
Qed.

Lemma registered_handler_uses_loaded_credential_witness :
  ∃ c,
    envconfig_Process stubBoot = Ok c
    ∧ config Stub.handler = c
    ∧ ∀ (w : World) (s : discordgo.Session) (r : discordgo.MessageReactionAdd)
        (req : http.Request),
        HTTPDo req ∈ trace (reactionAdd w Stub.handler s r) →
        http.Header req !! "Authorization" = Some ["Bearer " +:+ OpenAIToken c]
        ∧ (http.Header req !! "Authorization" = Some ["Bearer " +:+ DiscordToken c]
           → DiscordToken c = OpenAIToken c).
Proof.
  apply (registered_handler_uses_loaded_credential stubBoot Stub.handler).
  apply list_elem_of_further. apply list_elem_of_here.
Defined.

(** [log.Fatal] puts no space between the message and the error. *)
Example main_open_fails :
  main {| envconfig_Process :=
            Ok {| DiscordToken := "discord-token"; OpenAIToken := "sk-test" |};
          discordgo_New := λ _, None;
          dg_Open := Some "websocket: bad handshake";
          delivered := Some SIGTERM |}
  = ([ SessionNew "Bot discord-token";
       SessionAddHandler Stub.handler;
       SessionOpen;
       Fatal "Error opening connection:websocket: bad handshake" ], Some 1%Z).
Proof. reflexivity. Qed.

Example main_missing_credential :
  main {| envconfig_Process := Err "required key OPENAI_TOKEN missing value";
          discordgo_New := λ _, None;
          dg_Open := None;
          delivered := None |}
  = ([Fatal "required key OPENAI_TOKEN missing value"], Some 1%Z).
Proof. reflexivity. Qed.
